(** * DocumentRegistry: a shallow embedding and its verified properties

    Source: packages/common/src/compiler/DocumentRegistry.ts

    The registry keeps one parsed source file per standardized path, asks its
    document caches for an already parsed file before it calls the parser, and
    hands out version strings.  The class is embedded as a record, its methods
    as computations in a state-and-exception monad over a [World] that holds
    the registry object, the allocation counter that gives every parsed file
    its reference identity, and the log of the calls made to the two
    collaborators (the parser and the document caches). *)

From Stdlib Require Import ZArith String Ascii List Bool Lia DecimalString DecimalN DecimalPos.
From stdpp Require Import base option gmap strings.

Local Open Scope string_scope.
Local Open Scope Z_scope.
Local Open Scope list_scope.

(** ** JavaScript values used by the registry *)

Module Js.

(** A JavaScript number that holds an integer, or NaN.  Numbers are IEEE-754
    doubles: every integer of magnitude up to 2^53 is represented exactly,
    larger ones are rounded to the nearest double, ties to the even
    significand.  Overflow to Infinity (beyond 2^1024) is outside the
    model. *)
Inductive number : Type :=
| NaN
| Num (z : Z).

Definition maxExact : Z := 2 ^ 53.

(** The double nearest to the integer [z]. *)
Definition roundDouble (z : Z) : Z :=
  let a := Z.abs z in
  if a <=? maxExact then z
  else
    let e := Z.log2 a - 52 in
    let q := a / 2 ^ e in
    let r := a mod 2 ^ e in
    let half := 2 ^ (e - 1) in
    let q' := if (half <? r) || ((r =? half) && Z.odd q) then q + 1 else q in
    Z.sgn z * (q' * 2 ^ e).

(** [n + 1] on numbers. *)
Definition add1 (z : Z) : Z := roundDouble (z + 1).

(** [n || 0]: NaN and 0 are the falsy numbers. *)
Definition orZero (n : number) : Z :=
  match n with
  | NaN => 0
  | Num z => z
  end.

(** [s || "0"] on an optional string property: [undefined] and the empty
    string are falsy. *)
Definition orString (v : option string) (d : string) : string :=
  match v with
  | None => d
  | Some EmptyString => d
  | Some s => s
  end.

(** White space that [parseInt] skips (the ASCII part of StrWhiteSpaceChar:
    tab, line feed, vertical tab, form feed, carriage return, space).  The
    other white space of JavaScript (U+00A0, U+FEFF, U+2028, U+2029 and the
    Unicode space separators) is not ASCII and is not recognized here: the
    statements about [parseInt10] admit ASCII characters only in front of
    the numeral. *)
Definition isWhiteSpace (c : ascii) : bool :=
  let n := nat_of_ascii c in
  ((9 <=? n) && (n <=? 13))%nat || (n =? 32)%nat.

Fixpoint trimStart (s : string) : string :=
  match s with
  | String c rest => if isWhiteSpace c then trimStart rest else s
  | EmptyString => s
  end.

Definition digitOf (c : ascii) : option (Decimal.uint -> Decimal.uint) :=
  match c with
  | "0"%char => Some Decimal.D0
  | "1"%char => Some Decimal.D1
  | "2"%char => Some Decimal.D2
  | "3"%char => Some Decimal.D3
  | "4"%char => Some Decimal.D4
  | "5"%char => Some Decimal.D5
  | "6"%char => Some Decimal.D6
  | "7"%char => Some Decimal.D7
  | "8"%char => Some Decimal.D8
  | "9"%char => Some Decimal.D9
  | _ => None
  end.

(** The longest prefix of decimal digits. *)
Fixpoint digitPrefix (s : string) : Decimal.uint :=
  match s with
  | String c rest =>
      match digitOf c with
      | Some d => d (digitPrefix rest)
      | None => Decimal.Nil
      end
  | EmptyString => Decimal.Nil
  end.

Definition digitsValue (s : string) : number :=
  match digitPrefix s with
  | Decimal.Nil => NaN
  | ds => Num (Z.of_N (N.of_uint ds))
  end.

Definition negate (n : number) : number :=
  match n with
  | NaN => NaN
  | Num z => Num (- z)
  end.

Definition rounded (n : number) : number :=
  match n with
  | NaN => NaN
  | Num z => Num (roundDouble z)
  end.

(** [parseInt(s, 10)]: skip white space, read an optional sign, then the
    longest run of decimal digits; NaN when there is no digit. *)
Definition parseInt10 (s : string) : number :=
  match trimStart s with
  | String "-"%char rest => rounded (negate (digitsValue rest))
  | String "+"%char rest => rounded (digitsValue rest)
  | t => rounded (digitsValue t)
  end.

(** [n.toString()] for an integer [n]: its decimal digits, with a leading
    minus sign when negative.  This is what JavaScript prints for every
    integer of magnitude up to 2^53 (and below 10^21 whenever the decimal
    expansion is also the shortest one that reads back as the same
    double). *)
Definition toString (z : Z) : string :=
  NilZero.string_of_int (Z.to_int z).

End Js.

(** ** Types of the TypeScript compiler API that the registry handles *)

Abbreviation StandardizedFilePath := string (only parsing).

(** [ts.IScriptSnapshot]: the text of a file at some point in time. *)
Record IScriptSnapshot : Type := mkSnapshot { getText : string }.

Inductive ScriptTarget : Type :=
| ES3 | ES5 | ES2015 | ES2016 | ES2017 | ES2018 | ES2019 | ES2020 | ESNext | JSONTarget.

Inductive ScriptKind : Type :=
| UnknownKind | JS | JSX | TS | TSX | External | JSONKind | Deferred.

(** [CompilerOptions]; the registry reads [target] only. *)
Record CompilerOptions : Type := mkCompilerOptions { target : option ScriptTarget }.

(** [ts.DocumentRegistryBucketKey] and [ts.Path] are branded strings. *)
Abbreviation DocumentRegistryBucketKey := string (only parsing).
Abbreviation Path := string (only parsing).

(** The contents of a [ts.SourceFile] object, as far as the registry and its
    collaborators are concerned.  [version] is the property that the language
    service attaches to the file; it may be missing. *)
Record SourceFileData : Type := mkSourceFileData {
  sfFileName : string;
  sfText : string;
  sfLanguageVersion : option ScriptTarget;
  sfScriptKind : option ScriptKind;
  version : option string
}.

(** A reference to a [ts.SourceFile] object: the identity of the object
    together with its contents.  The registry never mutates a source file, so
    the contents can travel with the reference.  Two references denote the
    same instance exactly when their identities agree. *)
Record SourceFile : Type := mkSourceFile {
  identity : nat;
  contents : SourceFileData
}.

Inductive Exn : Type :=
| NotImplementedError
| Thrown (message : string).

(** What a call that may throw produces. *)
Inductive Completion (A : Type) : Type :=
| Normal (a : A)
| Abrupt (e : Exn).
Arguments Normal {A} a.
Arguments Abrupt {A} e.

(** [TransactionalFileSystem], of which the registry uses the path
    standardization only. *)
Record TransactionalFileSystem : Type := mkTransactionalFileSystem {
  getStandardizedAbsolutePath : string -> string
}.

(** [FileSystemSpecificDocumentCache]: answers whether it already holds a
    parsed file for the given path, text, target and kind.  A query is taken
    to return, with a document or with none, as is the path standardization
    of the file system; a collaborator other than the parser that throws is
    outside the model. *)
Record FileSystemSpecificDocumentCache : Type := mkFileSystemSpecificDocumentCache {
  getDocumentIfMatch :
    string -> IScriptSnapshot -> option ScriptTarget -> option ScriptKind -> option SourceFile
}.

(** [DocumentCache]: bound to a file system when the registry is built. *)
Record DocumentCache : Type := mkDocumentCache {
  _getCacheForFileSystem : TransactionalFileSystem -> FileSystemSpecificDocumentCache
}.

(** The arguments of [createCompilerSourceFile]. *)
Record ParseRequest : Type := mkParseRequest {
  prFileName : string;
  prSnapshot : IScriptSnapshot;
  prTarget : option ScriptTarget;
  prVersion : string;
  prSetParentNodes : bool;
  prScriptKind : option ScriptKind
}.

(** ** The registry object and the world it runs in *)

Record DocumentRegistry : Type := mkDocumentRegistry {
  sourceFileCacheByFilePath : gmap string SourceFile;
  documentCaches : option (list FileSystemSpecificDocumentCache);
  transactionalFileSystem : TransactionalFileSystem
}.

(** A call made to a collaborator. *)
Inductive Call : Type :=
| ParserCall (request : ParseRequest)
| CacheCall (index : nat) (fileName : string) (scriptSnapshot : IScriptSnapshot)
    (scriptTarget : option ScriptTarget) (scriptKind : option ScriptKind).

Record World : Type := mkWorld {
  this : DocumentRegistry;
  allocated : nat;        (* number of source files created so far *)
  calls : list Call       (* collaborator calls, oldest first *)
}.

Definition isParserCall (c : Call) : bool :=
  match c with
  | ParserCall _ => true
  | CacheCall _ _ _ _ _ => false
  end.

Definition parserCalls (w : World) : nat :=
  length (List.filter isParserCall (calls w)).

(** ** The monad of registry methods: state, and exceptions that keep the
       state reached when they were thrown *)

Inductive Outcome (A : Type) : Type :=
| Returned (a : A) (w : World)
| Threw (e : Exn) (w : World).
Arguments Returned {A} a w.
Arguments Threw {A} e w.

Definition M (A : Type) : Type := World -> Outcome A.

Definition ret {A} (a : A) : M A := fun w => Returned a w.

Definition bind {A B} (m : M A) (k : A -> M B) : M B :=
  fun w =>
    match m w with
    | Returned a w' => k a w'
    | Threw e w' => Threw e w'
    end.

Definition throw {A} (e : Exn) : M A := fun w => Threw e w.

Declare Scope registry_scope.
Delimit Scope registry_scope with registry.
Notation "x <- m ;; k" := (bind m (fun x => k))
  (at level 100, m at next level, right associativity) : registry_scope.
Notation "m ;; k" := (bind m (fun _ => k))
  (at level 100, right associativity) : registry_scope.
Local Open Scope registry_scope.

(** [this.sourceFileCacheByFilePath.get(fileName)] *)
Definition mapGet (fileName : string) : M (option SourceFile) :=
  fun w => Returned (sourceFileCacheByFilePath (this w) !! fileName) w.

Definition withMap (f : gmap string SourceFile -> gmap string SourceFile) (w : World) : World :=
  {| this := {| sourceFileCacheByFilePath := f (sourceFileCacheByFilePath (this w));
                documentCaches := documentCaches (this w);
                transactionalFileSystem := transactionalFileSystem (this w) |};
     allocated := allocated w;
     calls := calls w |}.

(** [this.sourceFileCacheByFilePath.set(fileName, sourceFile)] *)
Definition mapSet (fileName : string) (sourceFile : SourceFile) : M unit :=
  fun w => Returned tt (withMap (insert fileName sourceFile) w).

(** [this.sourceFileCacheByFilePath.delete(fileName)] *)
Definition mapDelete (fileName : string) : M unit :=
  fun w => Returned tt (withMap (delete fileName) w).

Definition logCall (c : Call) (w : World) : World :=
  {| this := this w; allocated := allocated w; calls := calls w ++ [c] |}.

(** [cache.getDocumentIfMatch(...)], for the cache registered at [index]. *)
Definition callGetDocumentIfMatch (index : nat) (cache : FileSystemSpecificDocumentCache)
    (fileName : string) (scriptSnapshot : IScriptSnapshot)
    (scriptTarget : option ScriptTarget) (scriptKind : option ScriptKind)
  : M (option SourceFile) :=
  fun w =>
    Returned (getDocumentIfMatch cache fileName scriptSnapshot scriptTarget scriptKind)
             (logCall (CacheCall index fileName scriptSnapshot scriptTarget scriptKind) w).

(** ** The methods of [DocumentRegistry] *)

Section Registry.

(** [createCompilerSourceFile] lives in a module of its own; the registry is
    verified against any parser.  It either throws or produces the contents
    of a new source file. *)
Variable createCompilerSourceFile :
  string -> IScriptSnapshot -> option ScriptTarget -> string -> bool -> option ScriptKind ->
  Completion SourceFileData.

(** Calling the parser: the call is logged; a produced file becomes a new
    object, whose identity no earlier object has. *)
Definition callCreateCompilerSourceFile (fileName : string) (scriptSnapshot : IScriptSnapshot)
    (scriptTarget : option ScriptTarget) (version : string) (setParentNodes : bool)
    (scriptKind : option ScriptKind) : M SourceFile :=
  fun w =>
    let w' := logCall (ParserCall (mkParseRequest fileName scriptSnapshot scriptTarget version
                                     setParentNodes scriptKind)) w in
    match createCompilerSourceFile fileName scriptSnapshot scriptTarget version setParentNodes
            scriptKind with
    | Normal d =>
        Returned {| identity := allocated w'; contents := d |}
                 {| this := this w'; allocated := S (allocated w'); calls := calls w' |}
    | Abrupt e => Threw e w'
    end.

Definition initialVersion : string := "0".

(** The constructor: an empty map, and every document cache bound to the
    file system. *)
Definition newDocumentRegistry (transactionalFileSystem : TransactionalFileSystem)
    (documentCaches : option (list DocumentCache)) : DocumentRegistry :=
  {| sourceFileCacheByFilePath := ∅;
     documentCaches :=
       option_map (List.map (fun c => _getCacheForFileSystem c transactionalFileSystem))
                  documentCaches;
     transactionalFileSystem := transactionalFileSystem |}.

Definition getSourceFileVersion (sourceFile : SourceFile) : string :=
  Js.orString (version (contents sourceFile)) "0".

Definition getNextSourceFileVersion (sourceFile : SourceFile) : string :=
  let currentVersion := Js.orZero (Js.parseInt10 (getSourceFileVersion sourceFile)) in
  Js.toString (Js.add1 currentVersion).

(** The loop of [updateSourceFile] over the document caches, from the cache
    registered at [index] on: the first cache that has the document ends
    the loop, after the document was put into the map. *)
Fixpoint forEachDocumentCache (caches : list FileSystemSpecificDocumentCache) (index : nat)
    (fileName : string) (scriptSnapshot : IScriptSnapshot)
    (scriptTarget : option ScriptTarget) (scriptKind : option ScriptKind)
  : M (option SourceFile) :=
  match caches with
  | [] => ret None
  | cache :: rest =>
      document <- callGetDocumentIfMatch index cache fileName scriptSnapshot scriptTarget
                    scriptKind ;;
      match document with
      | Some document => mapSet fileName document ;; ret (Some document)
      | None => forEachDocumentCache rest (S index) fileName scriptSnapshot scriptTarget
                  scriptKind
      end
  end.

Definition updateSourceFile (fileName : string) (compilationSettings : CompilerOptions)
    (scriptSnapshot : IScriptSnapshot) (version : string) (scriptKind : option ScriptKind)
  : M SourceFile :=
  fun w =>
    (found <- match documentCaches (this w) with
              | Some caches =>
                  forEachDocumentCache caches 0 fileName scriptSnapshot
                    (target compilationSettings) scriptKind
              | None => ret None
              end ;;
     match found with
     | Some document => ret document
     | None =>
         newSourceFile <- callCreateCompilerSourceFile fileName scriptSnapshot
                            (target compilationSettings) version true scriptKind ;;
         mapSet fileName newSourceFile ;;
         ret newSourceFile
     end) w.

Definition createOrUpdateSourceFile (fileName : string) (compilationSettings : CompilerOptions)
    (scriptSnapshot : IScriptSnapshot) (scriptKind : option ScriptKind) : M SourceFile :=
  sourceFile <- mapGet fileName ;;
  match sourceFile with
  | None =>
      updateSourceFile fileName compilationSettings scriptSnapshot initialVersion scriptKind
  | Some sourceFile =>
      updateSourceFile fileName compilationSettings scriptSnapshot
        (getNextSourceFileVersion sourceFile) scriptKind
  end.

Definition removeSourceFile (fileName : string) : M unit :=
  mapDelete fileName.

Definition acquireDocument (fileName : string) (compilationSettings : CompilerOptions)
    (scriptSnapshot : IScriptSnapshot) (version : string) (scriptKind : option ScriptKind)
  : M SourceFile :=
  fun w =>
    let standardizedFilePath :=
      getStandardizedAbsolutePath (transactionalFileSystem (this w)) fileName in
    (sourceFile <- mapGet standardizedFilePath ;;
     match sourceFile with
     | Some sourceFile =>
         if negb (String.eqb (getSourceFileVersion sourceFile) version)
         then updateSourceFile standardizedFilePath compilationSettings scriptSnapshot version
                scriptKind
         else ret sourceFile
     | None =>
         updateSourceFile standardizedFilePath compilationSettings scriptSnapshot version
           scriptKind
     end) w.

Definition acquireDocumentWithKey (fileName : string) (path : Path)
    (compilationSettings : CompilerOptions) (key : DocumentRegistryBucketKey)
    (scriptSnapshot : IScriptSnapshot) (version : string) (scriptKind : option ScriptKind)
  : M SourceFile :=
  acquireDocument fileName compilationSettings scriptSnapshot version scriptKind.

Definition updateDocument (fileName : string) (compilationSettings : CompilerOptions)
    (scriptSnapshot : IScriptSnapshot) (version : string) (scriptKind : option ScriptKind)
  : M SourceFile :=
  acquireDocument fileName compilationSettings scriptSnapshot version scriptKind.

Definition updateDocumentWithKey (fileName : string) (path : Path)
    (compilationSettings : CompilerOptions) (key : DocumentRegistryBucketKey)
    (scriptSnapshot : IScriptSnapshot) (version : string) (scriptKind : option ScriptKind)
  : M SourceFile :=
  updateDocument fileName compilationSettings scriptSnapshot version scriptKind.

Definition getKeyForCompilationSettings (settings : CompilerOptions)
  : DocumentRegistryBucketKey := "defaultKey".

Definition releaseDocument (fileName : string) (compilationSettings : CompilerOptions)
  : M unit := ret tt.

Definition releaseDocumentWithKey (path : Path) (key : DocumentRegistryBucketKey)
  : M unit := ret tt.

Definition reportStats : M string := throw NotImplementedError.

(** A sequence of [createOrUpdateSourceFile] calls for one path, one call
    per request, with the files they return in order. *)
Fixpoint createOrUpdateEach (fileName : string)
    (requests : list (CompilerOptions * IScriptSnapshot * option ScriptKind))
  : M (list SourceFile) :=
  match requests with
  | [] => ret []
  | (compilationSettings, scriptSnapshot, scriptKind) :: rest =>
      sourceFile <- createOrUpdateSourceFile fileName compilationSettings scriptSnapshot
                      scriptKind ;;
      sourceFiles <- createOrUpdateEach fileName rest ;;
      ret (sourceFile :: sourceFiles)
  end.

End Registry.

(** ** Sample collaborators *)

(** Modelled from the spec: [createCompilerSourceFile], whose module is not
    among the sources.  The spec describes the parser as a pure function from
    (path, snapshot, dialect, version, set-parent flag, script kind) to a
    parsed tree that carries its revision and the dialect and kind it was
    parsed with. *)
Definition recordingParser (fileName : string) (scriptSnapshot : IScriptSnapshot)
    (scriptTarget : option ScriptTarget) (version : string) (setParentNodes : bool)
    (scriptKind : option ScriptKind) : Completion SourceFileData :=
  Normal {| sfFileName := fileName;
            sfText := getText scriptSnapshot;
            sfLanguageVersion := scriptTarget;
            sfScriptKind := scriptKind;
            version := Some version |}.

(** A parser that fails on every input. *)
Definition failingParser (fileName : string) (scriptSnapshot : IScriptSnapshot)
    (scriptTarget : option ScriptTarget) (version : string) (setParentNodes : bool)
    (scriptKind : option ScriptKind) : Completion SourceFileData :=
  Abrupt (Thrown "parse failure").

(** A file system whose paths are already standardized. *)
Definition plainFileSystem : TransactionalFileSystem :=
  {| getStandardizedAbsolutePath := fun fileName => fileName |}.

(** A document cache that holds one parsed file, for one path and text. *)
Definition singleDocumentCache (fileName : string) (text : string) (document : SourceFile)
  : DocumentCache :=
  {| _getCacheForFileSystem := fun _ =>
       {| getDocumentIfMatch := fun fileName' scriptSnapshot _ _ =>
            if String.eqb fileName' fileName && String.eqb (getText scriptSnapshot) text
            then Some document else None |} |}.

(** The world around a newly constructed registry; [created] source files
    exist already (those held by the document caches). *)
Definition newWorld (documentCaches : option (list DocumentCache)) (created : nat) : World :=
  {| this := newDocumentRegistry plainFileSystem documentCaches;
     allocated := created;
     calls := [] |}.

Definition es2015 : CompilerOptions := {| target := Some ES2015 |}.

Definition cachedFile (n : nat) (v : option string) : SourceFile :=
  {| identity := n;
     contents := {| sfFileName := "/a.ts"; sfText := "({x, y} = z);";
                    sfLanguageVersion := Some ES2015; sfScriptKind := Some TS;
                    version := v |} |}.

Definition versionsOf (sourceFiles : list SourceFile) : list string :=
  List.map getSourceFileVersion sourceFiles.

Definition snapshot : IScriptSnapshot := mkSnapshot "({x, y} = z);".

(** A registry built without document caches, nothing parsed yet. *)
Definition freshWorld : World := newWorld None 0.

(** A registry built with one document cache, which holds a file for
    "/a.ts" that was parsed earlier and carries version "7". *)
Definition seededWorld : World :=
  newWorld (Some [singleDocumentCache "/a.ts" "({x, y} = z);" (cachedFile 0 (Some "7"))]) 1.

(** A registry built with three document caches: the first is for another
    path, the second and the third both hold a file for "/a.ts". *)
Definition threeCachesWorld : World :=
  newWorld (Some [singleDocumentCache "/b.ts" "({x, y} = z);" (cachedFile 0 None);
                  singleDocumentCache "/a.ts" "({x, y} = z);" (cachedFile 1 (Some "7"));
                  singleDocumentCache "/a.ts" "({x, y} = z);" (cachedFile 2 None)]) 3.

(** The caches of [threeCachesWorld], as bound to the file system. *)
Definition boundCache (fileName : string) (document : SourceFile)
  : FileSystemSpecificDocumentCache :=
  _getCacheForFileSystem (singleDocumentCache fileName "({x, y} = z);" document) plainFileSystem.

(** Three requests for one path. *)
Definition threeRequests : list (CompilerOptions * IScriptSnapshot * option ScriptKind) :=
  [(es2015, snapshot, None); (es2015, mkSnapshot "({a} = b);", None); (es2015, snapshot, Some TS)].

(** A registry without document caches whose map holds a file for "/a.ts"
    at version "4". *)
Definition populatedWorld : World :=
  withMap (insert "/a.ts" (cachedFile 0 (Some "4"))) (newWorld None 1).

(** Two [createOrUpdateSourceFile] calls, an [acquireDocument] at version
    "0", and one more [createOrUpdateSourceFile], all for "/a.ts" and with
    no [removeSourceFile] in between; the result is the list of the versions
    of the four files. *)
Definition updateTwiceAcquireUpdate
    (parser : string -> IScriptSnapshot -> option ScriptTarget -> string -> bool ->
              option ScriptKind -> Completion SourceFileData) : M (list string) :=
  (first <- createOrUpdateSourceFile parser "/a.ts" es2015 snapshot None ;;
   second <- createOrUpdateSourceFile parser "/a.ts" es2015 snapshot None ;;
   acquired <- acquireDocument parser "/a.ts" es2015 snapshot "0" None ;;
   third <- createOrUpdateSourceFile parser "/a.ts" es2015 snapshot None ;;
   ret (versionsOf [first; second; acquired; third]))%registry.

(** ** Vocabulary of the statements *)

(** The caches a registry was built with. *)
Definition registeredCaches (r : DocumentRegistry) : list FileSystemSpecificDocumentCache :=
  match documentCaches r with
  | Some caches => caches
  | None => []
  end.

(** A cache has no document for the request. *)
Definition misses (fileName : string) (scriptSnapshot : IScriptSnapshot)
    (scriptTarget : option ScriptTarget) (scriptKind : option ScriptKind)
    (cache : FileSystemSpecificDocumentCache) : Prop :=
  getDocumentIfMatch cache fileName scriptSnapshot scriptTarget scriptKind = None.

(** No registered cache has a document for the request. *)
Definition noCacheMatches (w : World) (fileName : string) (compilationSettings : CompilerOptions)
    (scriptSnapshot : IScriptSnapshot) (scriptKind : option ScriptKind) : Prop :=
  Forall (misses fileName scriptSnapshot (target compilationSettings) scriptKind)
         (registeredCaches (this w)).

(** The queries made to [count] caches in registration order, starting with
    the cache registered at [index]. *)
Definition cacheQueries (index count : nat) (fileName : string) (scriptSnapshot : IScriptSnapshot)
    (scriptTarget : option ScriptTarget) (scriptKind : option ScriptKind) : list Call :=
  List.map (fun i => CacheCall i fileName scriptSnapshot scriptTarget scriptKind)
           (seq index count).

Definition logCalls (cs : list Call) (w : World) : World :=
  {| this := this w; allocated := allocated w; calls := calls w ++ cs |}.

(** The map entry of a path. *)
Definition entry (w : World) (fileName : string) : option SourceFile :=
  sourceFileCacheByFilePath (this w) !! fileName.

(** The parser call that [updateSourceFile] makes. *)
Definition parseCall (fileName : string) (compilationSettings : CompilerOptions)
    (scriptSnapshot : IScriptSnapshot) (version : string) (scriptKind : option ScriptKind)
  : Call :=
  ParserCall (mkParseRequest fileName scriptSnapshot (target compilationSettings) version true
                scriptKind).

(** A parser that attaches the version it is given to the file it produces,
    as the language service's parser does. *)
Definition recordsVersion
    (parser : string -> IScriptSnapshot -> option ScriptTarget -> string -> bool ->
              option ScriptKind -> Completion SourceFileData) : Prop :=
  forall fileName scriptSnapshot scriptTarget v setParentNodes scriptKind d,
    parser fileName scriptSnapshot scriptTarget v setParentNodes scriptKind = Normal d ->
    version d = Some v.

(** The path under which [acquireDocument] looks a file name up. *)
Definition standardized (w : World) (fileName : string) : string :=
  getStandardizedAbsolutePath (transactionalFileSystem (this w)) fileName.

(** The versions handed to the parser, call by call. *)
Definition parsedVersions (cs : list Call) : list string :=
  flat_map (fun c => match c with
                     | ParserCall request => [prVersion request]
                     | CacheCall _ _ _ _ _ => []
                     end) cs.

(** The world after [updateSourceFile] asked every cache in vain, parsed, and
    stored the new file [d]. *)
Definition afterParse (w : World) (fileName : string) (compilationSettings : CompilerOptions)
    (scriptSnapshot : IScriptSnapshot) (v : string) (scriptKind : option ScriptKind)
    (d : SourceFileData) : World :=
  {| this := {| sourceFileCacheByFilePath :=
                  <[fileName := {| identity := allocated w; contents := d |}]>
                    (sourceFileCacheByFilePath (this w));
                documentCaches := documentCaches (this w);
                transactionalFileSystem := transactionalFileSystem (this w) |};
     allocated := S (allocated w);
     calls := calls w
              ++ cacheQueries 0 (length (registeredCaches (this w))) fileName scriptSnapshot
                   (target compilationSettings) scriptKind
              ++ [parseCall fileName compilationSettings scriptSnapshot v scriptKind] |}.

(** The world after [updateSourceFile] asked every cache in vain and the
    parser threw. *)
Definition afterFailedParse (w : World) (fileName : string)
    (compilationSettings : CompilerOptions) (scriptSnapshot : IScriptSnapshot) (v : string)
    (scriptKind : option ScriptKind) : World :=
  logCalls (cacheQueries 0 (length (registeredCaches (this w))) fileName scriptSnapshot
              (target compilationSettings) scriptKind
            ++ [parseCall fileName compilationSettings scriptSnapshot v scriptKind]) w.

(** The world after [updateSourceFile] found the document [document] in the
    cache that was asked as number [asked]. *)
Definition afterCacheMatch (w : World) (fileName : string)
    (compilationSettings : CompilerOptions) (scriptSnapshot : IScriptSnapshot)
    (scriptKind : option ScriptKind) (asked : nat) (document : SourceFile) : World :=
  withMap (insert fileName document)
    (logCalls (cacheQueries 0 asked fileName scriptSnapshot (target compilationSettings)
                 scriptKind) w).

(** The entry points that hand out source files. *)
Inductive EntryPoint : Type :=
| CreateOrUpdateSourceFile (fileName : string) (compilationSettings : CompilerOptions)
    (scriptSnapshot : IScriptSnapshot) (scriptKind : option ScriptKind)
| AcquireDocument (fileName : string) (compilationSettings : CompilerOptions)
    (scriptSnapshot : IScriptSnapshot) (v : string) (scriptKind : option ScriptKind)
| AcquireDocumentWithKey (fileName : string) (path : string)
    (compilationSettings : CompilerOptions) (key : string)
    (scriptSnapshot : IScriptSnapshot) (v : string) (scriptKind : option ScriptKind)
| UpdateDocument (fileName : string) (compilationSettings : CompilerOptions)
    (scriptSnapshot : IScriptSnapshot) (v : string) (scriptKind : option ScriptKind)
| UpdateDocumentWithKey (fileName : string) (path : string)
    (compilationSettings : CompilerOptions) (key : string)
    (scriptSnapshot : IScriptSnapshot) (v : string) (scriptKind : option ScriptKind).

Definition call
    (parser : string -> IScriptSnapshot -> option ScriptTarget -> string -> bool ->
              option ScriptKind -> Completion SourceFileData)
    (p : EntryPoint) : M SourceFile :=
  match p with
  | CreateOrUpdateSourceFile f cs s k => createOrUpdateSourceFile parser f cs s k
  | AcquireDocument f cs s v k => acquireDocument parser f cs s v k
  | AcquireDocumentWithKey f path cs key s v k =>
      acquireDocumentWithKey parser f path cs key s v k
  | UpdateDocument f cs s v k => updateDocument parser f cs s v k
  | UpdateDocumentWithKey f path cs key s v k =>
      updateDocumentWithKey parser f path cs key s v k
  end.

(** The three ways in which [updateSourceFile] can end. *)
Inductive Materialized
    (parser : string -> IScriptSnapshot -> option ScriptTarget -> string -> bool ->
              option ScriptKind -> Completion SourceFileData)
    (f : string) (cs : CompilerOptions) (s : IScriptSnapshot) (v : string)
    (k : option ScriptKind) (w : World) : Outcome SourceFile -> Prop :=
| ByParser d :
    noCacheMatches w f cs s k ->
    parser f s (target cs) v true k = Normal d ->
    Materialized parser f cs s v k w
      (Returned {| identity := allocated w; contents := d |} (afterParse w f cs s v k d))
| ByFailure e :
    noCacheMatches w f cs s k ->
    parser f s (target cs) v true k = Abrupt e ->
    Materialized parser f cs s v k w (Threw e (afterFailedParse w f cs s v k))
| ByCache pre c post d :
    documentCaches (this w) = Some (pre ++ c :: post) ->
    Forall (misses f s (target cs) k) pre ->
    getDocumentIfMatch c f s (target cs) k = Some d ->
    Materialized parser f cs s v k w (Returned d (afterCacheMatch w f cs s k (S (length pre)) d)).

(** The state of a path's version counter: no entry yet, or an entry whose
    version is the decimal numeral of [n - 1]. *)
Definition counterAt (w : World) (fileName : string) (n : nat) : Prop :=
  match n with
  | O => entry w fileName = None
  | S m => exists t, entry w fileName = Some t
                     /\ version (contents t) = Some (Js.toString (Z.of_nat m))
  end.

(** The decimal numerals of [n], [n + 1], ..., [n + count - 1]. *)
Definition numerals (n count : nat) : list string :=
  List.map (fun i => Js.toString (Z.of_nat i)) (seq n count).

(** A request that no cache matches and that the parser accepts at every
    version. *)
Definition parsedAfresh
    (parser : string -> IScriptSnapshot -> option ScriptTarget -> string -> bool ->
              option ScriptKind -> Completion SourceFileData)
    (w : World) (fileName : string)
    (request : CompilerOptions * IScriptSnapshot * option ScriptKind) : Prop :=
  let '(compilationSettings, scriptSnapshot, scriptKind) := request in
  noCacheMatches w fileName compilationSettings scriptSnapshot scriptKind
  /\ forall v, exists d,
       parser fileName scriptSnapshot (target compilationSettings) v true scriptKind = Normal d.

(** ** Further samples *)

(** The text of "/a.ts" after an edit; no cache of the samples holds it. *)
Definition editedSnapshot : IScriptSnapshot := mkSnapshot "({x, y} = w);".

(** Two requests that the cache of [seededWorld] has a document for. *)
Definition cachedRequests : list (CompilerOptions * IScriptSnapshot * option ScriptKind) :=
  [(es2015, snapshot, None); (es2015, snapshot, Some TS)].

(** A stand-in for fast-glob that lists each pattern under the directory. *)
Definition listingGlob (patterns : list string) (cwd : string) (absolute : bool)
  : list string :=
  List.map (fun p => (cwd ++ "/" ++ p)%string) patterns.

(** ** Vocabulary of the further properties *)

(** What an entry point is asked for: the path under which it looks up and
    stores (the file name itself for [createOrUpdateSourceFile], the
    standardized file name for the others), and the request it hands on. *)
Definition pathOf (p : EntryPoint) (w : World) : string :=
  match p with
  | CreateOrUpdateSourceFile f _ _ _ => f
  | AcquireDocument f _ _ _ _ => standardized w f
  | AcquireDocumentWithKey f _ _ _ _ _ _ => standardized w f
  | UpdateDocument f _ _ _ _ => standardized w f
  | UpdateDocumentWithKey f _ _ _ _ _ _ => standardized w f
  end.

Definition settingsOf (p : EntryPoint) : CompilerOptions :=
  match p with
  | CreateOrUpdateSourceFile _ cs _ _ => cs
  | AcquireDocument _ cs _ _ _ => cs
  | AcquireDocumentWithKey _ _ cs _ _ _ _ => cs
  | UpdateDocument _ cs _ _ _ => cs
  | UpdateDocumentWithKey _ _ cs _ _ _ _ => cs
  end.

Definition snapshotOf (p : EntryPoint) : IScriptSnapshot :=
  match p with
  | CreateOrUpdateSourceFile _ _ s _ => s
  | AcquireDocument _ _ s _ _ => s
  | AcquireDocumentWithKey _ _ _ _ s _ _ => s
  | UpdateDocument _ _ s _ _ => s
  | UpdateDocumentWithKey _ _ _ _ s _ _ => s
  end.

Definition kindOf (p : EntryPoint) : option ScriptKind :=
  match p with
  | CreateOrUpdateSourceFile _ _ _ k => k
  | AcquireDocument _ _ _ _ k => k
  | AcquireDocumentWithKey _ _ _ _ _ _ k => k
  | UpdateDocument _ _ _ _ k => k
  | UpdateDocumentWithKey _ _ _ _ _ _ k => k
  end.

(** The version an entry point passes to [updateSourceFile] when it
    materializes: the caller's for the acquiring entry points, the initial or
    the next one for [createOrUpdateSourceFile]. *)
Definition versionOf (p : EntryPoint) (w : World) : string :=
  match p with
  | CreateOrUpdateSourceFile f _ _ _ =>
      match entry w f with
      | None => initialVersion
      | Some sourceFile => getNextSourceFileVersion sourceFile
      end
  | AcquireDocument _ _ _ v _ => v
  | AcquireDocumentWithKey _ _ _ _ _ v _ => v
  | UpdateDocument _ _ _ v _ => v
  | UpdateDocumentWithKey _ _ _ _ _ v _ => v
  end.

(** The document of the first cache, in registration order, that has one
    for the request. *)
Fixpoint firstDocument (caches : list FileSystemSpecificDocumentCache) (fileName : string)
    (scriptSnapshot : IScriptSnapshot) (scriptTarget : option ScriptTarget)
    (scriptKind : option ScriptKind) : option SourceFile :=
  match caches with
  | [] => None
  | cache :: rest =>
      match getDocumentIfMatch cache fileName scriptSnapshot scriptTarget scriptKind with
      | Some document => Some document
      | None => firstDocument rest fileName scriptSnapshot scriptTarget scriptKind
      end
  end.

(** Every source file that the map or a cache holds was created before now:
    its identity is below the allocation counter. *)
Definition createdEarlier (w : World) : Prop :=
  (forall path t, entry w path = Some t -> (identity t < allocated w)%nat)
  /\ Forall (fun cache =>
               forall f s t k d,
                 getDocumentIfMatch cache f s t k = Some d -> (identity d < allocated w)%nat)
            (registeredCaches (this w)).

(** The world around a registry as the constructor builds it. *)
Definition constructedWorld (fileSystem : TransactionalFileSystem)
    (caches : option (list DocumentCache)) (created : nat) (log : list Call) : World :=
  {| this := newDocumentRegistry fileSystem caches; allocated := created; calls := log |}.

(** A string of white space only. *)
Fixpoint allWhiteSpace (s : string) : bool :=
  match s with
  | EmptyString => true
  | String c rest => Js.isWhiteSpace c && allWhiteSpace rest
  end.

(** A string that does not begin with a decimal digit. *)
Definition noLeadingDigit (s : string) : Prop :=
  match s with
  | EmptyString => True
  | String c _ => Js.digitOf c = None
  end.

(** A parser call with the arguments the registry must pass for a request:
    the path, the snapshot, the target of the settings, the script kind, and
    [true] for the parent nodes.  The version is left open. *)
Definition parsesRequest (path : string) (compilationSettings : CompilerOptions)
    (scriptSnapshot : IScriptSnapshot) (scriptKind : option ScriptKind) (c : Call) : Prop :=
  match c with
  | ParserCall request =>
      prFileName request = path
      /\ prSnapshot request = scriptSnapshot
      /\ prTarget request = target compilationSettings
      /\ prScriptKind request = scriptKind
      /\ prSetParentNodes request = true
  | CacheCall _ f s t k =>
      f = path /\ s = scriptSnapshot /\ t = target compilationSettings /\ k = scriptKind
  end.

(** The world an outcome leaves behind. *)
Definition worldOf {A} (o : Outcome A) : World :=
  match o with
  | Returned _ w => w
  | Threw _ w => w
  end.

(** ** RealFileSystemHost: the glob patterns *)

Module RealFileSystemHost.

Definition backslash : ascii := ascii_of_nat 92.

(** [p.replace(/\\/g, "/")]: every backslash becomes a forward slash. *)
Fixpoint backslashesToForward (p : string) : string :=
  match p with
  | EmptyString => EmptyString
  | String c rest =>
      String (if Ascii.eqb c backslash then "/"%char else c) (backslashesToForward rest)
  end.

(** A slash of either direction. *)
Definition isSlash (c : ascii) : bool := Ascii.eqb c backslash || Ascii.eqb c "/"%char.

(** Two patterns that are the same up to the direction of their slashes:
    character by character they agree, or both have a slash there. *)
Fixpoint sameUpToSlashDirection (p q : string) : bool :=
  match p, q with
  | EmptyString, EmptyString => true
  | String a p', String b q' =>
      (Ascii.eqb a b || (isSlash a && isSlash b)) && sameUpToSlashDirection p' q'
  | _, _ => false
  end.

Fixpoint hasBackslash (p : string) : bool :=
  match p with
  | EmptyString => false
  | String c rest => Ascii.eqb c backslash || hasBackslash rest
  end.

Section Glob.

(** [fastGlob.sync(patterns, { cwd, absolute })] and the current directory
    come from outside the class. *)
Variable fastGlobSync : list string -> string -> bool -> list string.
Variable currentDirectory : string.

Definition glob (patterns : list string) : list string :=
  let patterns := List.map backslashesToForward patterns in
  fastGlobSync patterns currentDirectory true.

End Glob.

End RealFileSystemHost.

(** * Properties *)

(** ** Numbers and version strings *)

Lemma roundDouble_exact (z : Z) : Z.abs z <= Js.maxExact -> Js.roundDouble z = z.
Proof.
  intros Hz. unfold Js.roundDouble.
  destruct (Z.leb_spec (Z.abs z) Js.maxExact) as [_ | Hgt]; [reflexivity | lia].
Qed.

Lemma add1_exact (z : Z) : 0 <= z < Js.maxExact -> Js.add1 z = z + 1.
Proof. intros Hz. unfold Js.add1. apply roundDouble_exact. lia. Qed.

(** Beyond 2^53 the counter no longer advances. *)
Lemma add1_saturates : Js.add1 Js.maxExact = Js.maxExact.
Proof. vm_compute. reflexivity. Qed.

Lemma digitPrefix_string_of_uint (u : Decimal.uint) :
  Js.digitPrefix (NilEmpty.string_of_uint u) = u.
Proof. induction u; simpl; congruence. Qed.

Lemma trimStart_string_of_uint (u : Decimal.uint) :
  Js.trimStart (NilEmpty.string_of_uint u) = NilEmpty.string_of_uint u.
Proof. destruct u; reflexivity. Qed.

Lemma parseInt10_string_of_uint (u : Decimal.uint) :
  u <> Decimal.Nil ->
  Js.parseInt10 (NilEmpty.string_of_uint u) = Js.Num (Js.roundDouble (Z.of_N (N.of_uint u))).
Proof.
  intros Hu. unfold Js.parseInt10. rewrite trimStart_string_of_uint.
  assert (Hd : Js.digitsValue (NilEmpty.string_of_uint u) = Js.Num (Z.of_N (N.of_uint u))).
  { unfold Js.digitsValue. rewrite digitPrefix_string_of_uint. destruct u; congruence. }
  destruct u; try congruence; simpl NilEmpty.string_of_uint in *; cbv iota beta; rewrite Hd; reflexivity.
Qed.

(** Parsing what [toString] printed gives the number back, in the exact
    range. *)
Lemma parseInt10_toString (z : Z) :
  0 <= z <= Js.maxExact -> Js.parseInt10 (Js.toString z) = Js.Num z.
Proof.
  intros Hz. unfold Js.toString. destruct z as [| p | p]; [reflexivity | | lia].
  simpl Z.to_int. unfold NilZero.string_of_int, NilZero.string_of_uint.
  assert (Hp : Pos.to_uint p <> Decimal.Nil).
  { intros E. pose proof (DecimalPos.Unsigned.of_to p) as H. rewrite E in H. discriminate. }
  destruct (Pos.to_uint p) eqn:E; try congruence;
    rewrite <- E; (rewrite parseInt10_string_of_uint by (rewrite E; discriminate));
    unfold N.of_uint; rewrite DecimalPos.Unsigned.of_to; simpl Z.of_N;
    rewrite roundDouble_exact by lia; reflexivity.
Qed.

Lemma toString_nonempty (z : Z) : exists c s, Js.toString z = String c s.
Proof.
  unfold Js.toString, NilZero.string_of_int, NilZero.string_of_uint.
  destruct (Z.to_int z) as [d | d]; [| simpl; eauto].
  destruct d; simpl; eauto.
Qed.

Lemma orString_nonempty (c : ascii) (s d : string) :
  Js.orString (Some (String c s)) d = String c s.
Proof. reflexivity. Qed.

Lemma getSourceFileVersion_toString (t : SourceFile) (z : Z) :
  version (contents t) = Some (Js.toString z) -> getSourceFileVersion t = Js.toString z.
Proof.
  intros Hv. unfold getSourceFileVersion. rewrite Hv.
  destruct (toString_nonempty z) as (c & s & E). rewrite E. reflexivity.
Qed.

(** The version after [n] is [n + 1], while the counter is exact. *)
Lemma getNextSourceFileVersion_toString (t : SourceFile) (z : Z) :
  0 <= z < Js.maxExact ->
  version (contents t) = Some (Js.toString z) ->
  getNextSourceFileVersion t = Js.toString (z + 1).
Proof.
  intros Hz Hv. unfold getNextSourceFileVersion.
  rewrite (getSourceFileVersion_toString t z Hv).
  rewrite parseInt10_toString by lia. simpl Js.orZero.
  rewrite add1_exact by lia. reflexivity.
Qed.

(** [getSourceFileVersion] never reports the empty string. *)
Lemma getSourceFileVersion_nonempty (t : SourceFile) : getSourceFileVersion t <> "".
Proof.
  unfold getSourceFileVersion, Js.orString.
  destruct (version (contents t)) as [[| c s] |]; discriminate.
Qed.

(** ** The world through the calls *)

Lemma logCalls_nil (w : World) : logCalls [] w = w.
Proof. destruct w as [r a cs]. unfold logCalls. simpl. rewrite app_nil_r. reflexivity. Qed.

Lemma logCalls_cons (c : Call) (cs : list Call) (w : World) :
  logCalls (c :: cs) w = logCalls cs (logCall c w).
Proof. unfold logCalls, logCall. simpl. rewrite <- app_assoc. reflexivity. Qed.

Lemma parserCalls_logCalls (cs : list Call) (w : World) :
  parserCalls (logCalls cs w) = (parserCalls w + length (List.filter isParserCall cs))%nat.
Proof. unfold parserCalls, logCalls. simpl. rewrite List.filter_app, length_app. reflexivity. Qed.

Lemma cacheQueries_no_parser (i n : nat) f s t k :
  List.filter isParserCall (cacheQueries i n f s t k) = [].
Proof.
  unfold cacheQueries. revert i. induction n as [| n IH]; intros i; simpl; [reflexivity | apply IH].
Qed.

Lemma cacheQueries_S (i n : nat) f s t k :
  cacheQueries i (S n) f s t k = CacheCall i f s t k :: cacheQueries (S i) n f s t k.
Proof. reflexivity. Qed.

Section RegistryFacts.

Variable parser :
  string -> IScriptSnapshot -> option ScriptTarget -> string -> bool -> option ScriptKind ->
  Completion SourceFileData.

(** The loop when every cache misses: all of them are asked, nothing is
    stored. *)
Lemma forEachDocumentCache_all_miss caches i f s t k w :
  Forall (misses f s t k) caches ->
  forEachDocumentCache caches i f s t k w
  = Returned None (logCalls (cacheQueries i (length caches) f s t k) w).
Proof.
  intros H. revert i w. induction H as [| c rest Hc _ IH]; intros i w.
  - simpl. rewrite logCalls_nil. reflexivity.
  - simpl forEachDocumentCache. unfold bind, callGetDocumentIfMatch.
    unfold misses in Hc. rewrite Hc. rewrite IH.
    simpl length. rewrite cacheQueries_S, logCalls_cons. reflexivity.
Qed.

(** The loop when the cache after [pre] is the first with the document:
    the caches up to it are asked, the document is stored and returned. *)
Lemma forEachDocumentCache_first_match pre c post i f s t k d w :
  Forall (misses f s t k) pre ->
  getDocumentIfMatch c f s t k = Some d ->
  forEachDocumentCache (pre ++ c :: post) i f s t k w
  = Returned (Some d)
      (withMap (insert f d) (logCalls (cacheQueries i (S (length pre)) f s t k) w)).
Proof.
  intros H Hd. revert i w. induction H as [| c0 rest Hc _ IH]; intros i w.
  - simpl app. simpl forEachDocumentCache. unfold bind, callGetDocumentIfMatch. rewrite Hd.
    unfold mapSet, ret. simpl length. rewrite cacheQueries_S, logCalls_cons.
    unfold cacheQueries. simpl List.map. rewrite logCalls_nil. reflexivity.
  - simpl app. simpl forEachDocumentCache. unfold bind at 1. unfold callGetDocumentIfMatch.
    unfold misses in Hc. rewrite Hc. rewrite IH.
    simpl length. rewrite (cacheQueries_S i), logCalls_cons. reflexivity.
Qed.

(** [updateSourceFile] when no cache matches: it is the parser call made
    after the queries, followed by the store. *)
Lemma updateSourceFile_miss f cs s v k w :
  noCacheMatches w f cs s k ->
  updateSourceFile parser f cs s v k w
  = (newSourceFile <- callCreateCompilerSourceFile parser f s (target cs) v true k ;;
     mapSet f newSourceFile ;;
     ret newSourceFile)
      (logCalls (cacheQueries 0 (length (registeredCaches (this w))) f s (target cs) k) w).
Proof.
  unfold noCacheMatches, registeredCaches, updateSourceFile. intros H.
  destruct (documentCaches (this w)) as [caches |].
  - unfold bind at 1. rewrite (forEachDocumentCache_all_miss _ _ _ _ _ _ _ H). reflexivity.
  - unfold bind at 1. unfold ret at 1. simpl. rewrite logCalls_nil. reflexivity.
Qed.

End RegistryFacts.

(** ** Materialization *)

Section Materialization.

Variable parser :
  string -> IScriptSnapshot -> option ScriptTarget -> string -> bool -> option ScriptKind ->
  Completion SourceFileData.

Lemma updateSourceFile_parsed f cs s v k d w :
  noCacheMatches w f cs s k ->
  parser f s (target cs) v true k = Normal d ->
  updateSourceFile parser f cs s v k w
  = Returned {| identity := allocated w; contents := d |} (afterParse w f cs s v k d).
Proof.
  intros Hno Hd. rewrite updateSourceFile_miss by assumption.
  unfold bind, callCreateCompilerSourceFile. rewrite Hd.
  unfold mapSet, ret, afterParse, withMap, logCall, logCalls. simpl.
  rewrite <- app_assoc. reflexivity.
Qed.

Lemma updateSourceFile_failed f cs s v k e w :
  noCacheMatches w f cs s k ->
  parser f s (target cs) v true k = Abrupt e ->
  updateSourceFile parser f cs s v k w = Threw e (afterFailedParse w f cs s v k).
Proof.
  intros Hno He. rewrite updateSourceFile_miss by assumption.
  unfold bind, callCreateCompilerSourceFile. rewrite He.
  unfold afterFailedParse, logCall, logCalls. simpl.
  rewrite <- app_assoc. reflexivity.
Qed.

Lemma updateSourceFile_cache_match f cs s v k pre c post d w :
  documentCaches (this w) = Some (pre ++ c :: post) ->
  Forall (misses f s (target cs) k) pre ->
  getDocumentIfMatch c f s (target cs) k = Some d ->
  updateSourceFile parser f cs s v k w
  = Returned d (afterCacheMatch w f cs s k (S (length pre)) d).
Proof.
  intros Hc Hpre Hd. unfold updateSourceFile. rewrite Hc. unfold bind at 1.
  rewrite (forEachDocumentCache_first_match pre c post 0 f s (target cs) k d w Hpre Hd).
  reflexivity.
Qed.

(** Either every cache misses, or some cache is the first with a document. *)
Lemma caches_miss_or_match f s t k (caches : list FileSystemSpecificDocumentCache) :
  Forall (misses f s t k) caches
  \/ exists pre c post d,
       caches = pre ++ c :: post
       /\ Forall (misses f s t k) pre
       /\ getDocumentIfMatch c f s t k = Some d.
Proof.
  induction caches as [| c rest IH]; [left; constructor |].
  destruct (getDocumentIfMatch c f s t k) as [d |] eqn:E.
  - right. exists [], c, rest, d. repeat split; [constructor | assumption].
  - destruct IH as [IH | (pre & c' & post & d & -> & Hpre & Hd)].
    + left. constructor; assumption.
    + right. exists (c :: pre), c', post, d. repeat split; [constructor; assumption | assumption].
Qed.

Lemma updateSourceFile_Materialized f cs s v k w :
  Materialized parser f cs s v k w (updateSourceFile parser f cs s v k w).
Proof.
  destruct (caches_miss_or_match f s (target cs) k (registeredCaches (this w)))
    as [Hno | (pre & c & post & d & Hc & Hpre & Hd)].
  - destruct (parser f s (target cs) v true k) as [d | e] eqn:E.
    + rewrite (updateSourceFile_parsed f cs s v k d w Hno E). constructor; assumption.
    + rewrite (updateSourceFile_failed f cs s v k e w Hno E). constructor; assumption.
  - assert (Hc' : documentCaches (this w) = Some (pre ++ c :: post)).
    { unfold registeredCaches in Hc. destruct (documentCaches (this w)) as [l |].
      - congruence.
      - destruct pre; discriminate. }
    rewrite (updateSourceFile_cache_match f cs s v k pre c post d w Hc' Hpre Hd).
    econstructor; eassumption.
Qed.

End Materialization.

(** ** What the three endings leave behind *)

Lemma parserCalls_afterParse w f cs s v k d :
  parserCalls (afterParse w f cs s v k d) = S (parserCalls w).
Proof.
  unfold parserCalls, afterParse. simpl.
  rewrite !List.filter_app, cacheQueries_no_parser, !length_app. simpl. lia.
Qed.

Lemma parserCalls_afterFailedParse w f cs s v k :
  parserCalls (afterFailedParse w f cs s v k) = S (parserCalls w).
Proof.
  unfold afterFailedParse. rewrite parserCalls_logCalls.
  rewrite List.filter_app, cacheQueries_no_parser. simpl. lia.
Qed.

Lemma parserCalls_afterCacheMatch w f cs s k n d :
  parserCalls (afterCacheMatch w f cs s k n d) = parserCalls w.
Proof.
  unfold afterCacheMatch, withMap, parserCalls. simpl.
  rewrite List.filter_app, cacheQueries_no_parser, length_app. simpl. lia.
Qed.

Lemma parsedVersions_cacheQueries i n f s t k : parsedVersions (cacheQueries i n f s t k) = [].
Proof.
  unfold cacheQueries. revert i. induction n as [| n IH]; intros i; simpl; [reflexivity | apply IH].
Qed.

Lemma parsedVersions_afterParse w f cs s v k d :
  parsedVersions (calls (afterParse w f cs s v k d)) = parsedVersions (calls w) ++ [v].
Proof.
  unfold parsedVersions, afterParse. simpl.
  rewrite !flat_map_app. fold (parsedVersions (cacheQueries 0 (length (registeredCaches (this w)))
                                                 f s (target cs) k)).
  rewrite parsedVersions_cacheQueries. reflexivity.
Qed.

Lemma entry_afterParse w f cs s v k d :
  entry (afterParse w f cs s v k d) f = Some {| identity := allocated w; contents := d |}.
Proof. unfold entry, afterParse. simpl. apply lookup_insert_eq. Qed.

Lemma entry_afterCacheMatch w f cs s k n d :
  entry (afterCacheMatch w f cs s k n d) f = Some d.
Proof. unfold entry, afterCacheMatch, withMap. simpl. apply lookup_insert_eq. Qed.

Section Claims.

Variable parser :
  string -> IScriptSnapshot -> option ScriptTarget -> string -> bool -> option ScriptKind ->
  Completion SourceFileData.

(** *** The entry points in terms of [updateSourceFile] *)

Lemma createOrUpdateSourceFile_unfold f cs s k w :
  createOrUpdateSourceFile parser f cs s k w
  = updateSourceFile parser f cs s
      (match entry w f with
       | None => initialVersion
       | Some sourceFile => getNextSourceFileVersion sourceFile
       end) k w.
Proof.
  unfold createOrUpdateSourceFile, bind, mapGet, entry.
  destruct (sourceFileCacheByFilePath (this w) !! f); reflexivity.
Qed.

Lemma acquireDocument_miss f cs s v k w :
  (entry w (standardized w f) = None
   \/ exists t, entry w (standardized w f) = Some t /\ getSourceFileVersion t <> v) ->
  acquireDocument parser f cs s v k w = updateSourceFile parser (standardized w f) cs s v k w.
Proof.
  unfold acquireDocument, bind, mapGet, entry, standardized.
  intros [H | (t & H & Hv)]; rewrite H; [reflexivity |].
  apply String.eqb_neq in Hv. rewrite Hv. reflexivity.
Qed.

Lemma acquireDocument_hit f cs s v k w t :
  entry w (standardized w f) = Some t ->
  getSourceFileVersion t = v ->
  acquireDocument parser f cs s v k w = Returned t w.
Proof.
  unfold acquireDocument, bind, mapGet, entry, standardized.
  intros H Hv. rewrite H. apply String.eqb_eq in Hv. rewrite Hv. reflexivity.
Qed.

(** C8. [acquireDocumentWithKey], [updateDocument] and [updateDocumentWithKey]
    are [acquireDocument] on the arguments they share with it: as
    computations they are equal, so on every world they return the same
    source file and leave the same world behind, whatever the path and key
    arguments are. *)
Theorem keyed_and_update_entry_points_are_acquireDocument
    (fileName path : string) (compilationSettings : CompilerOptions) (key : string)
    (scriptSnapshot : IScriptSnapshot) (v : string) (scriptKind : option ScriptKind) :
  acquireDocumentWithKey parser fileName path compilationSettings key scriptSnapshot v scriptKind
  = acquireDocument parser fileName compilationSettings scriptSnapshot v scriptKind
  /\ updateDocument parser fileName compilationSettings scriptSnapshot v scriptKind
     = acquireDocument parser fileName compilationSettings scriptSnapshot v scriptKind
  /\ updateDocumentWithKey parser fileName path compilationSettings key scriptSnapshot v
       scriptKind
     = acquireDocument parser fileName compilationSettings scriptSnapshot v scriptKind.
Proof. repeat split. Qed.

(** C9. [releaseDocument] and [releaseDocumentWithKey] return without
    touching the world: the map, the allocation counter and the log of
    collaborator calls (parser and document caches) are what they were. *)
Theorem release_leaves_the_world_unchanged
    (fileName path : string) (compilationSettings : CompilerOptions) (key : string)
    (w : World) :
  releaseDocument fileName compilationSettings w = Returned tt w
  /\ releaseDocumentWithKey path key w = Returned tt w.
Proof. split; reflexivity. Qed.

(** C3. When no registered cache has a document for the request,
    [updateSourceFile] calls the parser once, after having asked every
    cache; if the parser produces a file, that file, a new object, is stored
    under the path and returned, and if the parser throws, so does
    [updateSourceFile].  [createOrUpdateSourceFile] always materializes this
    way, and [acquireDocument] does whenever the map has no entry of the
    requested version. *)
Theorem no_cache_match_falls_through_to_parser
    (f : string) (cs : CompilerOptions) (s : IScriptSnapshot) (v : string)
    (k : option ScriptKind) (w : World) :
  noCacheMatches w f cs s k ->
  (match parser f s (target cs) v true k with
   | Normal d =>
       let newSourceFile := {| identity := allocated w; contents := d |} in
       exists w',
         updateSourceFile parser f cs s v k w = Returned newSourceFile w'
         /\ sourceFileCacheByFilePath (this w')
            = <[f := newSourceFile]> (sourceFileCacheByFilePath (this w))
         /\ calls w'
            = calls w
              ++ cacheQueries 0 (length (registeredCaches (this w))) f s (target cs) k
              ++ [parseCall f cs s v k]
         /\ parserCalls w' = S (parserCalls w)
   | Abrupt e =>
       exists w', updateSourceFile parser f cs s v k w = Threw e w'
   end)
  /\ createOrUpdateSourceFile parser f cs s k w
     = updateSourceFile parser f cs s
         (match entry w f with
          | None => initialVersion
          | Some sourceFile => getNextSourceFileVersion sourceFile
          end) k w
  /\ (forall fileName,
        standardized w fileName = f ->
        (entry w f = None \/ exists t, entry w f = Some t /\ getSourceFileVersion t <> v) ->
        acquireDocument parser fileName cs s v k w = updateSourceFile parser f cs s v k w).
Proof.
  intros Hno. split; [| split].
  - destruct (parser f s (target cs) v true k) as [d | e] eqn:E.
    + exists (afterParse w f cs s v k d). split; [| split; [| split]].
      * apply updateSourceFile_parsed; assumption.
      * reflexivity.
      * reflexivity.
      * apply parserCalls_afterParse.
    + exists (afterFailedParse w f cs s v k). apply updateSourceFile_failed; assumption.
  - apply createOrUpdateSourceFile_unfold.
  - intros fileName <- Hmiss. apply acquireDocument_miss. assumption.
Qed.

(** C4. When the first registered cache that has a document for the request
    is the one after [pre] (whatever the caches after it would answer, so also
    when several of them match), [updateSourceFile] returns exactly that
    cache's document and stores it under the path; only the caches up to that
    one are asked, the parser is not called and no object is created. *)
Theorem first_matching_cache_wins
    (f : string) (cs : CompilerOptions) (s : IScriptSnapshot) (v : string)
    (k : option ScriptKind) (w : World)
    (pre post : list FileSystemSpecificDocumentCache) (c : FileSystemSpecificDocumentCache)
    (d : SourceFile) :
  documentCaches (this w) = Some (pre ++ c :: post) ->
  Forall (misses f s (target cs) k) pre ->
  getDocumentIfMatch c f s (target cs) k = Some d ->
  exists w',
    updateSourceFile parser f cs s v k w = Returned d w'
    /\ sourceFileCacheByFilePath (this w') = <[f := d]> (sourceFileCacheByFilePath (this w))
    /\ calls w' = calls w ++ cacheQueries 0 (S (length pre)) f s (target cs) k
    /\ parserCalls w' = parserCalls w
    /\ allocated w' = allocated w.
Proof.
  intros Hc Hpre Hd. exists (afterCacheMatch w f cs s k (S (length pre)) d).
  split; [| split; [| split; [| split]]].
  - apply (updateSourceFile_cache_match parser f cs s v k pre c post d w); assumption.
  - reflexivity.
  - reflexivity.
  - apply parserCalls_afterCacheMatch.
  - reflexivity.
Qed.

(** *** Throwing *)

Lemma updateSourceFile_threw f cs s v k w e w' :
  updateSourceFile parser f cs s v k w = Threw e w' ->
  parser f s (target cs) v true k = Abrupt e
  /\ noCacheMatches w f cs s k
  /\ w' = afterFailedParse w f cs s v k.
Proof.
  intros H. pose proof (updateSourceFile_Materialized parser f cs s v k w) as HM.
  rewrite H in HM. inversion HM; subst. repeat split; assumption.
Qed.

Lemma acquireDocument_threw f cs s v k w e w' :
  acquireDocument parser f cs s v k w = Threw e w' ->
  updateSourceFile parser (standardized w f) cs s v k w = Threw e w'.
Proof.
  unfold acquireDocument, bind, mapGet, standardized.
  destruct (sourceFileCacheByFilePath (this w) !! _) as [t |]; [| tauto].
  destruct (negb _); [tauto | discriminate].
Qed.

(** C6. When the parser throws during materialization (no cache has the
    document, so [updateSourceFile] reaches the parser), [updateSourceFile]
    ends with that exception and the registry object, so in particular its
    map, is as it was before the call.  And whenever one of the entry points
    ends with an exception, the exception is one that the parser threw for
    the request, and the registry object is as it was: every path has the
    entry it had.  The map is written only after the parser has returned. *)
Theorem parse_failure_leaves_the_map_unchanged :
  (forall f cs s v k w e,
      noCacheMatches w f cs s k ->
      parser f s (target cs) v true k = Abrupt e ->
      exists w',
        updateSourceFile parser f cs s v k w = Threw e w'
        /\ sourceFileCacheByFilePath (this w') = sourceFileCacheByFilePath (this w)
        /\ (forall path, entry w' path = entry w path))
  /\ (forall (p : EntryPoint) (w : World) (e : Exn) (w' : World),
        call parser p w = Threw e w' ->
        this w' = this w
        /\ sourceFileCacheByFilePath (this w') = sourceFileCacheByFilePath (this w)
        /\ (forall path, entry w' path = entry w path)
        /\ exists f s t v k,
             parser f s t v true k = Abrupt e
             /\ last (calls w') = Some (ParserCall (mkParseRequest f s t v true k))).
Proof.
  split.
  - intros f cs s v k w e Hno He. exists (afterFailedParse w f cs s v k).
    split; [apply updateSourceFile_failed; assumption |]. split; reflexivity.
  - intros p w e w' H.
    assert (Hu : exists f cs s v k, updateSourceFile parser f cs s v k w = Threw e w').
    { destruct p as [f cs s k | f cs s v k | f path cs key s v k | f cs s v k
                    | f path cs key s v k]; simpl in H.
      - rewrite createOrUpdateSourceFile_unfold in H. eauto 6.
      - apply acquireDocument_threw in H. eauto 6.
      - apply acquireDocument_threw in H. eauto 6.
      - apply acquireDocument_threw in H. eauto 6.
      - apply acquireDocument_threw in H. eauto 6. }
    destruct Hu as (f & cs & s & v & k & Hu).
    apply updateSourceFile_threw in Hu. destruct Hu as (He & _ & ->).
    split; [reflexivity |]. split; [reflexivity |]. split; [reflexivity |].
    exists f, s, (target cs), v, k. split; [assumption |].
    unfold afterFailedParse, logCalls, parseCall. simpl.
    rewrite !app_assoc. apply last_snoc.
Qed.

(** *** The empty version *)

(** C10 (amended).  A source file whose [version] property is missing or
    empty is reported at version "0".  Hence [acquireDocument] with the
    empty string for a version is [updateSourceFile] on every world: it
    never answers from the map.  When no cache matches the request and the
    parser accepts it, two such calls in a row each call the parser and each
    store a new object. *)
Theorem empty_version_always_materializes :
  (forall t : SourceFile,
      version (contents t) = None \/ version (contents t) = Some "" ->
      getSourceFileVersion t = "0")
  /\ (forall f cs s k w,
        acquireDocument parser f cs s "" k w
        = updateSourceFile parser (standardized w f) cs s "" k w)
  /\ (forall f cs s k w d,
        noCacheMatches w (standardized w f) cs s k ->
        parser (standardized w f) s (target cs) "" true k = Normal d ->
        exists t1 w1 t2 w2,
          acquireDocument parser f cs s "" k w = Returned t1 w1
          /\ acquireDocument parser f cs s "" k w1 = Returned t2 w2
          /\ identity t1 <> identity t2
          /\ entry w1 (standardized w f) = Some t1
          /\ entry w2 (standardized w f) = Some t2
          /\ parserCalls w2 = S (S (parserCalls w))).
Proof.
  assert (Hacq : forall f cs s k w,
             acquireDocument parser f cs s "" k w
             = updateSourceFile parser (standardized w f) cs s "" k w).
  { intros f cs s k w. destruct (entry w (standardized w f)) as [t |] eqn:E.
    - apply acquireDocument_miss. right. exists t. split; [assumption |].
      apply getSourceFileVersion_nonempty.
    - apply acquireDocument_miss. left. assumption. }
  split; [| split].
  - intros t [H | H]; unfold getSourceFileVersion; rewrite H; reflexivity.
  - exact Hacq.
  - intros f cs s k w d Hno Hd.
    set (p := standardized w f) in *.
    set (w1 := afterParse w p cs s "" k d).
    assert (Hp1 : standardized w1 f = p) by reflexivity.
    assert (Hno1 : noCacheMatches w1 p cs s k) by exact Hno.
    exists {| identity := allocated w; contents := d |}, w1,
           {| identity := allocated w1; contents := d |}, (afterParse w1 p cs s "" k d).
    split; [| split; [| split; [| split; [| split]]]].
    + rewrite Hacq. fold p. apply updateSourceFile_parsed; assumption.
    + rewrite Hacq. rewrite Hp1. apply updateSourceFile_parsed; assumption.
    + simpl. lia.
    + apply entry_afterParse.
    + apply entry_afterParse.
    + rewrite parserCalls_afterParse. unfold w1. rewrite parserCalls_afterParse. reflexivity.
Qed.

(** *** Acquiring twice *)

Lemma getSourceFileVersion_recorded (t : SourceFile) (v : string) :
  version (contents t) = Some v -> v <> "" -> getSourceFileVersion t = v.
Proof.
  intros Hv Hne. unfold getSourceFileVersion. rewrite Hv.
  destruct v; [congruence | reflexivity].
Qed.

Lemma acquireDocument_cases f cs s v k w :
  (exists t, entry w (standardized w f) = Some t
             /\ getSourceFileVersion t = v
             /\ acquireDocument parser f cs s v k w = Returned t w)
  \/ ((entry w (standardized w f) = None
       \/ exists t, entry w (standardized w f) = Some t /\ getSourceFileVersion t <> v)
      /\ acquireDocument parser f cs s v k w
         = updateSourceFile parser (standardized w f) cs s v k w).
Proof.
  destruct (entry w (standardized w f)) as [t |] eqn:E.
  - destruct (string_dec (getSourceFileVersion t) v) as [Hv | Hv].
    + left. exists t. repeat split; [assumption |]. apply acquireDocument_hit; assumption.
    + right. split; [right; eauto |]. apply acquireDocument_miss. right. eauto.
  - right. split; [left; reflexivity |]. apply acquireDocument_miss. left. assumption.
Qed.

Lemma updateSourceFile_returned_stored f cs s v k w t w' :
  updateSourceFile parser f cs s v k w = Returned t w' -> entry w' f = Some t.
Proof.
  intros H. pose proof (updateSourceFile_Materialized parser f cs s v k w) as HM.
  rewrite H in HM. inversion HM; subst.
  - apply entry_afterParse.
  - apply entry_afterCacheMatch.
Qed.

(** C1 (amended).  For a non-empty version, a request that no cache matches
    and a parser that produces a file carrying the version it was given:
    [acquireDocument] returns a source file, and the same call made again
    right away returns the same object and leaves the world as it found it (no
    parser call, no cache query, no store).  The parser is called at most
    once over the two calls, and exactly once when the first call found no
    entry of the requested version. *)
Theorem acquireDocument_again_is_a_cache_hit
    (f : string) (cs : CompilerOptions) (s : IScriptSnapshot) (v : string)
    (k : option ScriptKind) (w : World) (d : SourceFileData) :
  v <> "" ->
  recordsVersion parser ->
  noCacheMatches w (standardized w f) cs s k ->
  parser (standardized w f) s (target cs) v true k = Normal d ->
  exists t w1,
    acquireDocument parser f cs s v k w = Returned t w1
    /\ acquireDocument parser f cs s v k w1 = Returned t w1
    /\ (parserCalls w1 <= S (parserCalls w))%nat
    /\ ((entry w (standardized w f) = None
         \/ exists t0, entry w (standardized w f) = Some t0 /\ getSourceFileVersion t0 <> v) ->
        parserCalls w1 = S (parserCalls w)
        /\ t = {| identity := allocated w; contents := d |}).
Proof.
  intros Hne Hrec Hno Hd.
  destruct (acquireDocument_cases f cs s v k w) as [(t & Ht & Hv & Hacq) | (Hmiss & Hacq)].
  - exists t, w. split; [exact Hacq |]. split; [exact Hacq |]. split; [lia |].
    intros [Hnone | (t0 & Ht0 & Hv0)]; congruence.
  - set (p := standardized w f) in *.
    exists {| identity := allocated w; contents := d |}, (afterParse w p cs s v k d).
    assert (H1 : acquireDocument parser f cs s v k w
                 = Returned {| identity := allocated w; contents := d |}
                            (afterParse w p cs s v k d)).
    { rewrite Hacq. apply updateSourceFile_parsed; assumption. }
    split; [exact H1 |]. split; [| split; [| split]].
    + apply acquireDocument_hit.
      * apply entry_afterParse.
      * apply getSourceFileVersion_recorded; [| assumption]. simpl. eapply Hrec, Hd.
    + rewrite parserCalls_afterParse. lia.
    + apply parserCalls_afterParse.
    + reflexivity.
Qed.

(** *** A new version *)

(** C5 (amended).  After an [acquireDocument] at version "5" that called
    the parser and returned a file, the same request at version "6" (which
    the parser accepts, and the parser attaches the version it is given)
    calls the parser once more and returns and stores a different object.  In general,
    when the entry's reported version differs from the requested one,
    [acquireDocument] is [updateSourceFile]: it materializes, and what it
    returns is what it has stored under the path. *)
Theorem version_change_triggers_reparse :
  recordsVersion parser ->
  (forall f cs s k w t1 w1 d6,
      acquireDocument parser f cs s "5" k w = Returned t1 w1 ->
      parserCalls w1 = S (parserCalls w) ->
      parser (standardized w f) s (target cs) "6" true k = Normal d6 ->
      exists t2 w2,
        acquireDocument parser f cs s "6" k w1 = Returned t2 w2
        /\ parserCalls w2 = S (parserCalls w1)
        /\ identity t2 <> identity t1
        /\ entry w2 (standardized w f) = Some t2)
  /\ (forall f cs s v k w t,
        entry w (standardized w f) = Some t ->
        getSourceFileVersion t <> v ->
        acquireDocument parser f cs s v k w
        = updateSourceFile parser (standardized w f) cs s v k w
        /\ forall t' w', acquireDocument parser f cs s v k w = Returned t' w' ->
                         entry w' (standardized w f) = Some t').
Proof.
  intros Hrec. split.
  - intros f cs s k w t1 w1 d6 H1 Hcalls H6.
    set (p := standardized w f) in *.
    assert (Hfirst : exists d5, noCacheMatches w p cs s k
                                /\ version d5 = Some "5"
                                /\ t1 = {| identity := allocated w; contents := d5 |}
                                /\ w1 = afterParse w p cs s "5" k d5).
    { destruct (acquireDocument_cases f cs s "5" k w) as [(t & _ & _ & Hacq) | (_ & Hacq)].
      - rewrite Hacq in H1. injection H1 as -> ->. lia.
      - rewrite Hacq in H1. fold p in H1.
        pose proof (updateSourceFile_Materialized parser p cs s "5" k w) as HM.
        rewrite H1 in HM. inversion HM; subst.
        + exists d. repeat split; try assumption. eapply Hrec; eassumption.
        + rewrite parserCalls_afterCacheMatch in Hcalls. lia. }
    destruct Hfirst as (d5 & Hno & Hv5 & -> & ->).
    set (w1 := afterParse w p cs s "5" k d5).
    assert (Hacq : acquireDocument parser f cs s "6" k w1
                   = updateSourceFile parser p cs s "6" k w1).
    { apply (acquireDocument_miss f cs s "6" k w1). right.
      exists {| identity := allocated w; contents := d5 |}. split.
      - apply entry_afterParse.
      - unfold getSourceFileVersion. simpl. rewrite Hv5. discriminate. }
    exists {| identity := allocated w1; contents := d6 |}, (afterParse w1 p cs s "6" k d6).
    split; [| split; [| split]].
    + rewrite Hacq. apply updateSourceFile_parsed; assumption.
    + apply parserCalls_afterParse.
    + simpl. lia.
    + apply entry_afterParse.
  - intros f cs s v k w t Ht Hv.
    assert (Hacq : acquireDocument parser f cs s v k w
                   = updateSourceFile parser (standardized w f) cs s v k w).
    { apply acquireDocument_miss. right. eauto. }
    split; [exact Hacq |].
    intros t' w' H. rewrite Hacq in H.
    eapply updateSourceFile_returned_stored; eassumption.
Qed.

(** *** The version counter of [createOrUpdateSourceFile] *)

Lemma toString_injective (a b : Z) :
  0 <= a <= Js.maxExact -> 0 <= b <= Js.maxExact -> Js.toString a = Js.toString b -> a = b.
Proof.
  intros Ha Hb E. apply (f_equal Js.parseInt10) in E.
  rewrite !parseInt10_toString in E by assumption. congruence.
Qed.

Lemma parsedAfresh_same_caches w w' f request :
  registeredCaches (this w') = registeredCaches (this w) ->
  parsedAfresh parser w f request -> parsedAfresh parser w' f request.
Proof.
  intros Hc. destruct request as [[cs s] k]. unfold parsedAfresh, noCacheMatches.
  rewrite Hc. tauto.
Qed.

(** One call: with the counter at [n], the parser is given the numeral of
    [n], and the file it produces is stored. *)
Lemma createOrUpdateSourceFile_step f cs s k w n :
  recordsVersion parser ->
  counterAt w f n ->
  Z.of_nat n <= Js.maxExact ->
  parsedAfresh parser w f (cs, s, k) ->
  exists d,
    version d = Some (Js.toString (Z.of_nat n))
    /\ createOrUpdateSourceFile parser f cs s k w
       = Returned {| identity := allocated w; contents := d |}
                  (afterParse w f cs s (Js.toString (Z.of_nat n)) k d).
Proof.
  intros Hrec Hn Hle [Hno Hacc].
  assert (Hv : match entry w f with
               | None => initialVersion
               | Some sourceFile => getNextSourceFileVersion sourceFile
               end = Js.toString (Z.of_nat n)).
  { destruct n as [| m]; simpl in Hn.
    - rewrite Hn. reflexivity.
    - destruct Hn as (t & Ht & Hvt). rewrite Ht.
      rewrite (getNextSourceFileVersion_toString t (Z.of_nat m)) by (assumption || lia).
      f_equal. lia. }
  destruct (Hacc (Js.toString (Z.of_nat n))) as [d Hd].
  exists d. split; [eapply Hrec; eassumption |].
  rewrite createOrUpdateSourceFile_unfold, Hv.
  apply updateSourceFile_parsed; assumption.
Qed.

Lemma numerals_S n count : numerals n (S count) = Js.toString (Z.of_nat n) :: numerals (S n) count.
Proof. reflexivity. Qed.

(** A run of calls from a counter at [n]. *)
Lemma createOrUpdateEach_from f requests :
  recordsVersion parser ->
  forall w n,
    counterAt w f n ->
    Z.of_nat n + Z.of_nat (length requests) <= Js.maxExact + 1 ->
    Forall (parsedAfresh parser w f) requests ->
    exists sourceFiles w',
      createOrUpdateEach parser f requests w = Returned sourceFiles w'
      /\ versionsOf sourceFiles = numerals n (length requests)
      /\ parsedVersions (calls w') = parsedVersions (calls w) ++ numerals n (length requests)
      /\ counterAt w' f (n + length requests)
      /\ registeredCaches (this w') = registeredCaches (this w).
Proof.
  intros Hrec. induction requests as [| [[cs s] k] rest IH]; intros w n Hn Hle Hall.
  - exists [], w. simpl. rewrite app_nil_r, Nat.add_0_r. auto.
  - inversion Hall as [| ? ? Hhd Htl]; subst. simpl length in *.
    destruct (createOrUpdateSourceFile_step f cs s k w n Hrec Hn) as (d & Hvd & Hstep);
      [lia | assumption |].
    set (t := {| identity := allocated w; contents := d |}) in *.
    set (w1 := afterParse w f cs s (Js.toString (Z.of_nat n)) k d) in *.
    assert (Hn1 : counterAt w1 f (S n)).
    { exists t. split; [apply entry_afterParse | exact Hvd]. }
    assert (Hall1 : Forall (parsedAfresh parser w1 f) rest).
    { eapply List.Forall_impl; [| exact Htl]. intros r. apply parsedAfresh_same_caches. reflexivity. }
    destruct (IH w1 (S n) Hn1) as (files & w' & Hrun & Hvs & Hpv & Hc & Hcaches);
      [lia | assumption |].
    exists (t :: files), w'. split; [| split; [| split; [| split]]]; [| | | | exact Hcaches].
    + simpl createOrUpdateEach. unfold bind at 1. rewrite Hstep.
      unfold bind at 1. rewrite Hrun. reflexivity.
    + rewrite numerals_S. simpl. rewrite Hvs. f_equal.
      apply getSourceFileVersion_toString. exact Hvd.
    + rewrite Hpv. unfold w1. rewrite parsedVersions_afterParse, numerals_S.
      rewrite <- app_assoc. reflexivity.
    + replace (n + S (length rest))%nat with (S n + length rest)%nat by lia. exact Hc.
Qed.

(** C2 (amended).  On a path without an entry, a run of N calls of
    [createOrUpdateSourceFile], each for a request that no cache matches and
    that the parser accepts, with a parser that attaches the version it is
    given and N at most 2^53 + 1 (the range in which the number arithmetic of
    the counter is exact): the files returned report the versions "0", "1",
    ..., "N-1" in this order, and these are the versions the parser was
    given, one parser call per call. *)
Theorem createOrUpdateSourceFile_counts_from_zero
    (f : string) (requests : list (CompilerOptions * IScriptSnapshot * option ScriptKind))
    (w : World) :
  recordsVersion parser ->
  entry w f = None ->
  Forall (parsedAfresh parser w f) requests ->
  Z.of_nat (length requests) <= Js.maxExact + 1 ->
  exists sourceFiles w',
    createOrUpdateEach parser f requests w = Returned sourceFiles w'
    /\ versionsOf sourceFiles = numerals 0 (length requests)
    /\ parsedVersions (calls w') = parsedVersions (calls w) ++ numerals 0 (length requests).
Proof.
  intros Hrec Hentry Hall Hle.
  destruct (createOrUpdateEach_from f requests Hrec w 0%nat)
    as (files & w' & H1 & H2 & H3 & _ & _); [exact Hentry | lia | assumption |].
  exists files, w'. auto.
Qed.

Lemma createOrUpdateEach_app f l1 l2 w :
  createOrUpdateEach parser f (l1 ++ l2) w
  = match createOrUpdateEach parser f l1 w with
    | Returned files1 w1 =>
        match createOrUpdateEach parser f l2 w1 with
        | Returned files2 w2 => Returned (files1 ++ files2) w2
        | Threw e w2 => Threw e w2
        end
    | Threw e w1 => Threw e w1
    end.
Proof.
  revert w. induction l1 as [| [[cs s] k] rest IH]; intros w.
  - simpl. destruct (createOrUpdateEach parser f l2 w); reflexivity.
  - simpl. unfold bind at 1 3.
    destruct (createOrUpdateSourceFile parser f cs s k w) as [t w1 | e w1]; [| reflexivity].
    unfold bind at 1 2. rewrite IH.
    destruct (createOrUpdateEach parser f rest w1) as [files1 w2 | e w2]; [| reflexivity].
    unfold ret. destruct (createOrUpdateEach parser f l2 w2); reflexivity.
Qed.

Lemma numerals_snoc n count :
  numerals n (S count) = numerals n count ++ [Js.toString (Z.of_nat (n + count))].
Proof. unfold numerals. rewrite seq_S, List.map_app. reflexivity. Qed.

(** The call after the one that reached 2^53 returns version 2^53 again:
    with [m] such that [Z.of_nat m = 2^53], the run of [m + 2] calls ends with
    the numeral of 2^53 twice. *)
Lemma createOrUpdateEach_stuck f request (m : nat) w :
  recordsVersion parser ->
  entry w f = None ->
  parsedAfresh parser w f request ->
  Z.of_nat m = Js.maxExact ->
  exists sourceFiles w',
    createOrUpdateEach parser f (repeat request (S m) ++ [request]) w
    = Returned sourceFiles w'
    /\ versionsOf sourceFiles = numerals 0 (S m) ++ [Js.toString Js.maxExact].
Proof.
  intros Hrec Hentry Hreq Hm.
  destruct (createOrUpdateEach_from f (repeat request (S m)) Hrec w 0%nat)
    as (files & w1 & Hrun & Hvs & _ & Hc & Hcaches).
  - exact Hentry.
  - rewrite repeat_length. lia.
  - apply List.Forall_forall. intros r Hr. apply repeat_spec in Hr. subst r. exact Hreq.
  - rewrite repeat_length in Hvs, Hc. simpl in Hc. destruct Hc as (t & Ht & Hvt).
    rewrite Hm in Hvt.
    destruct request as [[cs s] k].
    pose proof (parsedAfresh_same_caches w w1 f (cs, s, k) Hcaches Hreq) as [Hno Hacc].
    assert (Hnext : getNextSourceFileVersion t = Js.toString Js.maxExact).
    { unfold getNextSourceFileVersion. rewrite (getSourceFileVersion_toString t _ Hvt).
      rewrite parseInt10_toString by (unfold Js.maxExact; lia).
      simpl Js.orZero. rewrite add1_saturates. reflexivity. }
    destruct (Hacc (Js.toString Js.maxExact)) as [d Hd].
    exists (files ++ [{| identity := allocated w1; contents := d |}]),
           (afterParse w1 f cs s (Js.toString Js.maxExact) k d).
    split.
    + rewrite createOrUpdateEach_app, Hrun. simpl createOrUpdateEach. unfold bind at 1.
      rewrite createOrUpdateSourceFile_unfold, Ht, Hnext.
      rewrite (updateSourceFile_parsed parser f cs s _ k d w1 Hno Hd).
      reflexivity.
    + unfold versionsOf in *. rewrite List.map_app, Hvs. simpl List.map. f_equal.
      rewrite (getSourceFileVersion_toString _ Js.maxExact); [reflexivity |].
      simpl. eapply Hrec, Hd.
Qed.

(** C7 (amended).  With a parser that attaches the version it is given:
    whatever the world, [removeSourceFile] followed by
    [createOrUpdateSourceFile] for a request that no cache matches and the
    parser accepts returns and stores a file at version "0"; and on a path
    whose entry carries the numeral of some n with 0 <= n < 2^53,
    [createOrUpdateSourceFile] does not start again: the file it returns is
    at the numeral of n + 1, which is not "0". *)
Theorem remove_then_createOrUpdate_starts_at_zero :
  recordsVersion parser ->
  (forall f cs s k w d,
      noCacheMatches w f cs s k ->
      parser f s (target cs) initialVersion true k = Normal d ->
      exists t w',
        (removeSourceFile f ;; createOrUpdateSourceFile parser f cs s k) w = Returned t w'
        /\ getSourceFileVersion t = "0"
        /\ entry w' f = Some t)
  /\ (forall f cs s k w t0 n d,
        entry w f = Some t0 ->
        version (contents t0) = Some (Js.toString n) ->
        0 <= n < Js.maxExact ->
        noCacheMatches w f cs s k ->
        parser f s (target cs) (Js.toString (n + 1)) true k = Normal d ->
        exists t w',
          createOrUpdateSourceFile parser f cs s k w = Returned t w'
          /\ getSourceFileVersion t = Js.toString (n + 1)
          /\ getSourceFileVersion t <> "0"
          /\ entry w' f = Some t).
Proof.
  intros Hrec. split.
  - intros f cs s k w d Hno Hd.
    set (w0 := withMap (delete f) w).
    assert (He : entry w0 f = None). { unfold entry, w0, withMap. simpl. apply lookup_delete_eq. }
    exists {| identity := allocated w0; contents := d |}, (afterParse w0 f cs s initialVersion k d).
    split; [| split].
    + unfold bind, removeSourceFile, mapDelete. fold w0.
      rewrite createOrUpdateSourceFile_unfold, He.
      apply updateSourceFile_parsed; assumption.
    + apply (getSourceFileVersion_toString _ 0). simpl. eapply Hrec, Hd.
    + apply entry_afterParse.
  - intros f cs s k w t0 n d Ht0 Hv0 Hn Hno Hd.
    exists {| identity := allocated w; contents := d |},
           (afterParse w f cs s (Js.toString (n + 1)) k d).
    assert (Hv : getSourceFileVersion {| identity := allocated w; contents := d |}
                 = Js.toString (n + 1)).
    { apply getSourceFileVersion_toString. simpl. eapply Hrec, Hd. }
    split; [| split; [| split]].
    + rewrite createOrUpdateSourceFile_unfold, Ht0.
      rewrite (getNextSourceFileVersion_toString t0 n) by assumption.
      apply updateSourceFile_parsed; assumption.
    + exact Hv.
    + rewrite Hv. intros E. change "0" with (Js.toString 0) in E.
      apply toString_injective in E; lia.
    + apply entry_afterParse.
Qed.

End Claims.

(** * The theorems at concrete registries *)

Lemma recordingParser_recordsVersion : recordsVersion recordingParser.
Proof.
  intros f s t v p k d H. unfold recordingParser in H. injection H as <-. reflexivity.
Qed.

Lemma freshWorld_noCacheMatches f cs s k : noCacheMatches freshWorld f cs s k.
Proof. constructor. Qed.

Lemma freshWorld_parsedAfresh f request : parsedAfresh recordingParser freshWorld f request.
Proof.
  destruct request as [[cs s] k]. split; [constructor |]. intros v. eexists. reflexivity.
Qed.

(** At the largest exact integer the version no longer changes. *)
Lemma getNextSourceFileVersion_stuck :
  getNextSourceFileVersion (cachedFile 0 (Some "9007199254740992")) = "9007199254740992".
Proof. vm_compute. reflexivity. Qed.

(** C1, counterexample.  With the empty string for a version, on a registry
    without caches, the second of two identical [acquireDocument] calls
    parses again and returns another object.  And where a cache has a
    document (here at version "7") for a request at version "5", both calls
    return the cache's document, the parser is never called, and the second
    call asks the cache again instead of answering from the map.  And
    where the map already holds the file at the requested version, the
    parser is not called at all over the two calls. *)
Lemma acquireDocument_again_counterexample :
  (exists t1 w1 t2 w2,
      acquireDocument recordingParser "/a.ts" es2015 snapshot "" None freshWorld
      = Returned t1 w1
      /\ acquireDocument recordingParser "/a.ts" es2015 snapshot "" None w1 = Returned t2 w2
      /\ identity t1 <> identity t2
      /\ parserCalls w2 = (parserCalls freshWorld + 2)%nat)
  /\ (exists t1 w1 t2 w2,
        acquireDocument recordingParser "/a.ts" es2015 snapshot "5" None seededWorld
        = Returned t1 w1
        /\ acquireDocument recordingParser "/a.ts" es2015 snapshot "5" None w1
           = Returned t2 w2
        /\ t1 = cachedFile 0 (Some "7")
        /\ t2 = t1
        /\ parserCalls w2 = parserCalls seededWorld
        /\ length (calls w2) = S (length (calls w1)))
  /\ (exists t1 w1 t2 w2,
        acquireDocument recordingParser "/a.ts" es2015 snapshot "4" None populatedWorld
        = Returned t1 w1
        /\ acquireDocument recordingParser "/a.ts" es2015 snapshot "4" None w1
           = Returned t2 w2
        /\ parserCalls w2 = parserCalls populatedWorld).
Proof.
  split; [| split].
  - eexists _, _, _, _. split; [vm_compute; reflexivity |].
    split; [vm_compute; reflexivity |]. split; [simpl; lia | reflexivity].
  - eexists _, _, _, _. split; [vm_compute; reflexivity |].
    split; [vm_compute; reflexivity |]. repeat split; reflexivity.
  - eexists _, _, _, _. split; [vm_compute; reflexivity |].
    split; [vm_compute; reflexivity |]. reflexivity.
Qed.

Lemma acquireDocument_again_witness :
  "5" <> ""
  /\ noCacheMatches freshWorld (standardized freshWorld "/a.ts") es2015 snapshot None
  /\ exists t w1,
       acquireDocument recordingParser "/a.ts" es2015 snapshot "5" None freshWorld
       = Returned t w1
       /\ acquireDocument recordingParser "/a.ts" es2015 snapshot "5" None w1 = Returned t w1
       /\ parserCalls w1 = S (parserCalls freshWorld).
Proof.
  split; [discriminate |]. split; [apply freshWorld_noCacheMatches |].
  destruct (acquireDocument_again_is_a_cache_hit recordingParser
              "/a.ts" es2015 snapshot "5" None freshWorld _
              ltac:(discriminate) recordingParser_recordsVersion
              (freshWorld_noCacheMatches _ _ _ _) eq_refl)
    as (t & w1 & H1 & H2 & _ & H4).
  exists t, w1. split; [exact H1 |]. split; [exact H2 |].
  apply H4. left. reflexivity.
Defined.

(** C2, counterexample.  On a registry whose cache has a file for the
    request, at version "7", the path has no entry, and already the first
    [createOrUpdateSourceFile] returns a file at "7", not at "0".  And on a
    registry without caches, a run of 2^53 + 2 calls does not end at the
    numeral of 2^53 + 1: the counter is a double, 2^53 + 1 rounds to 2^53, and
    the last two files are both at "9007199254740992". *)
Lemma createOrUpdateSourceFile_counter_counterexample :
  (entry seededWorld "/a.ts" = None
   /\ exists sourceFiles w',
        createOrUpdateEach recordingParser "/a.ts" [(es2015, snapshot, None)] seededWorld
        = Returned sourceFiles w'
        /\ versionsOf sourceFiles = ["7"]
        /\ versionsOf sourceFiles <> numerals 0 1)
  /\ (entry freshWorld "/a.ts" = None
      /\ exists sourceFiles w',
           createOrUpdateEach recordingParser "/a.ts"
             (repeat (es2015, snapshot, None) (Z.to_nat (Js.maxExact + 2))) freshWorld
           = Returned sourceFiles w'
           /\ versionsOf sourceFiles <> numerals 0 (Z.to_nat (Js.maxExact + 2))).
Proof.
  split.
  - split; [reflexivity |]. eexists _, _. split; [vm_compute; reflexivity |].
    split; [reflexivity | discriminate].
  - split; [reflexivity |].
    assert (H0 : 0 <= Js.maxExact) by (vm_compute; discriminate).
    assert (HN : Z.to_nat (Js.maxExact + 2) = S (S (Z.to_nat Js.maxExact))).
    { replace (Js.maxExact + 2) with (Z.succ (Z.succ Js.maxExact)) by lia.
      rewrite !Z2Nat.inj_succ by lia. reflexivity. }
    assert (Hm : Z.of_nat (Z.to_nat Js.maxExact) = Js.maxExact) by (apply Z2Nat.id; exact H0).
    rewrite HN. clear HN. generalize dependent (Z.to_nat Js.maxExact). intros m Hm.
    destruct (createOrUpdateEach_stuck recordingParser "/a.ts" (es2015, snapshot, None) m
                freshWorld recordingParser_recordsVersion eq_refl
                (freshWorld_parsedAfresh _ _) Hm)
      as (files & w' & Hrun & Hvs).
    exists files, w'. split.
    + rewrite <- Hrun. f_equal. apply (repeat_cons (S m)).
    + rewrite Hvs, (numerals_snoc 0 (S m)). intros E. apply app_inj_tail in E.
      destruct E as [_ E]. rewrite Nat.add_0_l, Nat2Z.inj_succ, Hm in E.
      vm_compute in E. discriminate.
Qed.

Lemma createOrUpdateSourceFile_counts_witness :
  entry freshWorld "/a.ts" = None
  /\ Z.of_nat (length threeRequests) <= Js.maxExact + 1
  /\ exists sourceFiles w',
       createOrUpdateEach recordingParser "/a.ts" threeRequests freshWorld
       = Returned sourceFiles w'
       /\ versionsOf sourceFiles = ["0"; "1"; "2"].
Proof.
  assert (Hle : Z.of_nat (length threeRequests) <= Js.maxExact + 1) by (vm_compute; discriminate).
  split; [reflexivity |]. split; [exact Hle |].
  destruct (createOrUpdateSourceFile_counts_from_zero recordingParser "/a.ts" threeRequests
              freshWorld recordingParser_recordsVersion eq_refl
              ltac:(repeat (apply List.Forall_cons; [apply freshWorld_parsedAfresh |]); apply List.Forall_nil) Hle)
    as (files & w' & H1 & H2 & _).
  exists files, w'. split; [exact H1 | exact H2].
Defined.

Lemma no_cache_match_witness :
  length (registeredCaches (this threeCachesWorld)) = 3%nat
  /\ getDocumentIfMatch (boundCache "/a.ts" (cachedFile 1 (Some "7"))) "/a.ts" snapshot
       (target es2015) None
     = Some (cachedFile 1 (Some "7"))
  /\ noCacheMatches threeCachesWorld "/a.ts" es2015 editedSnapshot None
  /\ exists t w',
       updateSourceFile recordingParser "/a.ts" es2015 editedSnapshot "3" None threeCachesWorld
       = Returned t w'
       /\ identity t = allocated threeCachesWorld
       /\ sfText (contents t) = getText editedSnapshot
       /\ version (contents t) = Some "3"
       /\ entry w' "/a.ts" = Some t
       /\ calls w'
          = cacheQueries 0 3 "/a.ts" editedSnapshot (target es2015) None
            ++ [parseCall "/a.ts" es2015 editedSnapshot "3" None]
       /\ parserCalls w' = S (parserCalls threeCachesWorld).
Proof.
  assert (Hno : noCacheMatches threeCachesWorld "/a.ts" es2015 editedSnapshot None).
  { unfold noCacheMatches. simpl.
    repeat (apply List.Forall_cons; [reflexivity |]). apply List.Forall_nil. }
  split; [reflexivity |]. split; [reflexivity |]. split; [exact Hno |].
  destruct (no_cache_match_falls_through_to_parser recordingParser
              "/a.ts" es2015 editedSnapshot "3" None threeCachesWorld Hno)
    as [H _].
  simpl in H. destruct H as (w' & H1 & H2 & H3 & H4).
  eexists _, w'. split; [exact H1 |]. split; [reflexivity |]. split; [reflexivity |].
  split; [reflexivity |]. split; [| split; [exact H3 | exact H4]].
  unfold entry. rewrite H2. apply lookup_insert_eq.
Defined.

Lemma first_matching_cache_witness :
  exists w',
    updateSourceFile recordingParser "/a.ts" es2015 snapshot "3" None threeCachesWorld
    = Returned (cachedFile 1 (Some "7")) w'
    /\ entry w' "/a.ts" = Some (cachedFile 1 (Some "7"))
    /\ length (calls w') = 2%nat
    /\ parserCalls w' = 0%nat.
Proof.
  destruct (first_matching_cache_wins recordingParser "/a.ts" es2015 snapshot "3" None
              threeCachesWorld
              [boundCache "/b.ts" (cachedFile 0 None)]
              [boundCache "/a.ts" (cachedFile 2 None)]
              (boundCache "/a.ts" (cachedFile 1 (Some "7")))
              (cachedFile 1 (Some "7"))
              eq_refl ltac:(repeat constructor) eq_refl)
    as (w' & H1 & H2 & H3 & H4 & _).
  exists w'. split; [exact H1 |]. split; [| split].
  - unfold entry. rewrite H2. apply lookup_insert_eq.
  - rewrite H3. reflexivity.
  - rewrite H4. reflexivity.
Defined.

Lemma version_change_witness :
  recordsVersion recordingParser
  /\ exists t1 w1 t2 w2,
       acquireDocument recordingParser "/a.ts" es2015 snapshot "5" None freshWorld
       = Returned t1 w1
       /\ parserCalls w1 = S (parserCalls freshWorld)
       /\ acquireDocument recordingParser "/a.ts" es2015 snapshot "6" None w1 = Returned t2 w2
       /\ parserCalls w2 = S (parserCalls w1)
       /\ identity t2 <> identity t1.
Proof.
  split; [exact recordingParser_recordsVersion |].
  destruct (version_change_triggers_reparse recordingParser recordingParser_recordsVersion)
    as [HA _].
  destruct (HA "/a.ts" es2015 snapshot None freshWorld _ _ _ eq_refl eq_refl eq_refl)
    as (t2 & w2 & H1 & H2 & H3 & _).
  eexists _, _, t2, w2. split; [reflexivity |]. split; [reflexivity |].
  split; [exact H1 |]. split; [exact H2 | exact H3].
Defined.

Lemma parse_failure_witness :
  noCacheMatches populatedWorld "/a.ts" es2015 snapshot None
  /\ (exists w',
         updateSourceFile failingParser "/a.ts" es2015 snapshot "5" None populatedWorld
         = Threw (Thrown "parse failure") w'
         /\ entry w' "/a.ts" = Some (cachedFile 0 (Some "4")))
  /\ (exists w',
         call failingParser (AcquireDocument "/a.ts" es2015 snapshot "5" None) populatedWorld
         = Threw (Thrown "parse failure") w'
         /\ entry w' "/a.ts" = Some (cachedFile 0 (Some "4"))
         /\ sourceFileCacheByFilePath (this w')
            = sourceFileCacheByFilePath (this populatedWorld)).
Proof.
  assert (Hno : noCacheMatches populatedWorld "/a.ts" es2015 snapshot None) by constructor.
  destruct (parse_failure_leaves_the_map_unchanged failingParser) as [Hupdate Hcall].
  split; [exact Hno |]. split.
  - destruct (Hupdate "/a.ts" es2015 snapshot "5" None populatedWorld _ Hno eq_refl)
      as (w' & Hthrew & _ & Hentry).
    exists w'. split; [exact Hthrew |]. rewrite Hentry. reflexivity.
  - eexists. split; [reflexivity |].
    destruct (Hcall (AcquireDocument "/a.ts" es2015 snapshot "5" None) populatedWorld _ _
                eq_refl)
      as (_ & Hmap & Hentry & _).
    split; [| exact Hmap]. rewrite Hentry. reflexivity.
Defined.

(** C7, counterexample.  On a registry whose cache has a file for the
    request, at version "7", [removeSourceFile] followed by
    [createOrUpdateSourceFile] returns a file at "7", not at "0".  And
    without any [removeSourceFile], an [acquireDocument] at version "0"
    after two [createOrUpdateSourceFile] calls puts the path back at "0",
    from where the next [createOrUpdateSourceFile] goes on to "1". *)
Lemma remove_then_createOrUpdate_counterexample :
  (exists t w',
      (removeSourceFile "/a.ts" ;;
       createOrUpdateSourceFile recordingParser "/a.ts" es2015 snapshot None) seededWorld
      = Returned t w'
      /\ getSourceFileVersion t = "7"
      /\ getSourceFileVersion t <> "0")
  /\ (exists w',
        updateTwiceAcquireUpdate recordingParser freshWorld
        = Returned ["0"; "1"; "0"; "1"] w').
Proof.
  split.
  - eexists _, _. split; [vm_compute; reflexivity |]. split; [reflexivity | discriminate].
  - eexists. vm_compute. reflexivity.
Qed.

Lemma remove_then_createOrUpdate_witness :
  recordsVersion recordingParser
  /\ entry populatedWorld "/a.ts" = Some (cachedFile 0 (Some "4"))
  /\ (exists t w',
         (removeSourceFile "/a.ts" ;;
          createOrUpdateSourceFile recordingParser "/a.ts" es2015 snapshot None) populatedWorld
         = Returned t w'
         /\ getSourceFileVersion t = "0")
  /\ (exists t w',
         createOrUpdateSourceFile recordingParser "/a.ts" es2015 snapshot None populatedWorld
         = Returned t w'
         /\ getSourceFileVersion t = "5").
Proof.
  split; [exact recordingParser_recordsVersion |]. split; [reflexivity |].
  destruct (remove_then_createOrUpdate_starts_at_zero recordingParser
              recordingParser_recordsVersion) as [H1 H2].
  split.
  - destruct (H1 "/a.ts" es2015 snapshot None populatedWorld _ ltac:(constructor) eq_refl)
      as (t & w' & Hrun & Hv & _).
    exists t, w'. split; [exact Hrun | exact Hv].
  - destruct (H2 "/a.ts" es2015 snapshot None populatedWorld (cachedFile 0 (Some "4")) 4 _
                eq_refl eq_refl ltac:(split; [discriminate | reflexivity]) ltac:(constructor)
                eq_refl)
      as (t & w' & Hrun & Hv & _).
    exists t, w'. split; [exact Hrun | exact Hv].
Defined.

Lemma empty_version_witness :
  noCacheMatches seededWorld (standardized seededWorld "/a.ts") es2015 editedSnapshot None
  /\ exists t1 w1 t2 w2,
       acquireDocument recordingParser "/a.ts" es2015 editedSnapshot "" None seededWorld
       = Returned t1 w1
       /\ acquireDocument recordingParser "/a.ts" es2015 editedSnapshot "" None w1
          = Returned t2 w2
       /\ identity t1 <> identity t2
       /\ parserCalls w2 = S (S (parserCalls seededWorld)).
Proof.
  assert (Hno : noCacheMatches seededWorld (standardized seededWorld "/a.ts") es2015
                  editedSnapshot None).
  { unfold noCacheMatches. simpl.
    repeat (apply List.Forall_cons; [reflexivity |]). apply List.Forall_nil. }
  split; [exact Hno |].
  destruct (empty_version_always_materializes recordingParser) as (_ & _ & H).
  destruct (H "/a.ts" es2015 editedSnapshot None seededWorld _ Hno eq_refl)
    as (t1 & w1 & t2 & w2 & H1 & H2 & H3 & _ & _ & H6).
  exists t1, w1, t2, w2. split; [exact H1 |]. split; [exact H2 |].
  split; [exact H3 | exact H6].
Defined.

(** C10, counterexample.  On a registry whose cache has a file for the
    request, two [acquireDocument] calls in a row with the empty string for
    a version both return the cache's file: the second call stores the same
    object again, not a new one, and the parser is called in neither. *)
Lemma empty_version_counterexample :
  exists t1 w1 t2 w2,
    acquireDocument recordingParser "/a.ts" es2015 snapshot "" None seededWorld
    = Returned t1 w1
    /\ acquireDocument recordingParser "/a.ts" es2015 snapshot "" None w1 = Returned t2 w2
    /\ t1 = cachedFile 0 (Some "7")
    /\ t2 = t1
    /\ entry w2 "/a.ts" = entry w1 "/a.ts"
    /\ allocated w2 = allocated seededWorld
    /\ parserCalls w2 = parserCalls seededWorld.
Proof.
  eexists _, _, _, _. split; [vm_compute; reflexivity |].
  split; [vm_compute; reflexivity |]. repeat split; reflexivity.
Qed.

(** C5, counterexample.  On a registry whose cache has a file for the
    request, [acquireDocument] at version "5" stores the cache's file, and
    the same request at version "6" returns that very file again; the parser
    is called in neither call. *)
Lemma version_change_counterexample :
  exists t1 w1 t2 w2,
    acquireDocument recordingParser "/a.ts" es2015 snapshot "5" None seededWorld
    = Returned t1 w1
    /\ entry w1 "/a.ts" = Some t1
    /\ acquireDocument recordingParser "/a.ts" es2015 snapshot "6" None w1 = Returned t2 w2
    /\ t2 = t1
    /\ parserCalls w2 = parserCalls seededWorld.
Proof.
  eexists _, _, _, _. split; [vm_compute; reflexivity |]. split; [reflexivity |].
  split; [vm_compute; reflexivity |]. split; reflexivity.
Qed.

(** * Further properties of the registry *)

Section EntryPoints.

Variable parser :
  string -> IScriptSnapshot -> option ScriptTarget -> string -> bool -> option ScriptKind ->
  Completion SourceFileData.

(** Every entry point either answers from the map, which only the acquiring
    ones do, or is [updateSourceFile] for its request. *)
Lemma call_hit_or_update p w :
  (exists t, entry w (pathOf p w) = Some t
             /\ getSourceFileVersion t = versionOf p w
             /\ call parser p w = Returned t w)
  \/ call parser p w
     = updateSourceFile parser (pathOf p w) (settingsOf p) (snapshotOf p) (versionOf p w)
         (kindOf p) w.
Proof.
  destruct p as [f cs s k | f cs s v k | f path cs key s v k | f cs s v k
                | f path cs key s v k]; simpl.
  - right. apply createOrUpdateSourceFile_unfold.
  - destruct (acquireDocument_cases parser f cs s v k w) as [(t & H1 & H2 & H3) | [_ H]];
      [left; eauto | right; exact H].
  - destruct (acquireDocument_cases parser f cs s v k w) as [(t & H1 & H2 & H3) | [_ H]];
      [left; eauto | right; exact H].
  - destruct (acquireDocument_cases parser f cs s v k w) as [(t & H1 & H2 & H3) | [_ H]];
      [left; eauto | right; exact H].
  - destruct (acquireDocument_cases parser f cs s v k w) as [(t & H1 & H2 & H3) | [_ H]];
      [left; eauto | right; exact H].
Qed.

Lemma call_hit_or_Materialized p w :
  (exists t, entry w (pathOf p w) = Some t
             /\ getSourceFileVersion t = versionOf p w
             /\ call parser p w = Returned t w)
  \/ Materialized parser (pathOf p w) (settingsOf p) (snapshotOf p) (versionOf p w) (kindOf p) w
       (call parser p w).
Proof.
  destruct (call_hit_or_update p w) as [H | H]; [left; exact H | right].
  rewrite H. apply updateSourceFile_Materialized.
Qed.

Lemma entry_afterParse_other w f cs s v k d path :
  path <> f -> entry (afterParse w f cs s v k d) path = entry w path.
Proof. intros H. unfold entry, afterParse. simpl. apply lookup_insert_ne. congruence. Qed.

Lemma entry_afterCacheMatch_other w f cs s k n d path :
  path <> f -> entry (afterCacheMatch w f cs s k n d) path = entry w path.
Proof. intros H. unfold entry, afterCacheMatch, withMap. simpl. apply lookup_insert_ne. congruence. Qed.

(** X1. [removeSourceFile] always returns; afterwards the path has no entry,
    every other path has the entry it had, and nothing else has changed: no
    collaborator was called, no object created, caches and file system are
    the same.  On a path without an entry it changes nothing at all. *)
Theorem removeSourceFile_deletes_one_entry (f : string) (w : World) :
  exists w',
    removeSourceFile f w = Returned tt w'
    /\ entry w' f = None
    /\ (forall path, path <> f -> entry w' path = entry w path)
    /\ calls w' = calls w
    /\ allocated w' = allocated w
    /\ documentCaches (this w') = documentCaches (this w)
    /\ transactionalFileSystem (this w') = transactionalFileSystem (this w)
    /\ (entry w f = None -> w' = w).
Proof.
  exists (withMap (delete f) w). unfold entry, withMap. simpl.
  split; [reflexivity |]. split; [apply lookup_delete_eq |].
  split; [intros path H; apply lookup_delete_ne; congruence |].
  repeat (split; [reflexivity |]).
  intros H. rewrite (delete_id _ _ H). destruct w as [[m c t] a l]. reflexivity.
Qed.

(** X2. An entry point changes the map at its own path only: whatever the
    outcome, every other path has the entry it had. *)
Theorem entry_points_touch_one_path (p : EntryPoint) (w : World) (path : string) :
  path <> pathOf p w ->
  entry (worldOf (call parser p w)) path = entry w path.
Proof.
  intros Hne. destruct (call_hit_or_Materialized p w) as [(t & _ & _ & H) | H].
  - rewrite H. reflexivity.
  - inversion H; simpl.
    + apply entry_afterParse_other; assumption.
    + reflexivity.
    + apply entry_afterCacheMatch_other; assumption.
Qed.

(** X3. What an entry point returns is what the map holds under its path
    afterwards. *)
Theorem returned_file_is_the_entry (p : EntryPoint) (w : World) (t : SourceFile) (w' : World) :
  call parser p w = Returned t w' ->
  entry w' (pathOf p w) = Some t.
Proof.
  intros Hret. destruct (call_hit_or_update p w) as [(t0 & Ht0 & _ & H) | H].
  - rewrite H in Hret. injection Hret as <- <-. exact Ht0.
  - rewrite H in Hret. eapply updateSourceFile_returned_stored; exact Hret.
Qed.

(** X4. No entry point replaces the registry's caches or its file system,
    whatever the outcome; so a file name is standardized to the same path
    before and after any call. *)
Theorem caches_and_file_system_are_fixed (p : EntryPoint) (w : World) :
  documentCaches (this (worldOf (call parser p w))) = documentCaches (this w)
  /\ transactionalFileSystem (this (worldOf (call parser p w)))
     = transactionalFileSystem (this w)
  /\ (forall fileName,
         standardized (worldOf (call parser p w)) fileName = standardized w fileName).
Proof.
  assert (H : documentCaches (this (worldOf (call parser p w))) = documentCaches (this w)
              /\ transactionalFileSystem (this (worldOf (call parser p w)))
                 = transactionalFileSystem (this w)).
  { destruct (call_hit_or_Materialized p w) as [(t & _ & _ & H) | H].
    - rewrite H. split; reflexivity.
    - inversion H; simpl; split; reflexivity. }
  destruct H as [H1 H2]. split; [exact H1 |]. split; [exact H2 |].
  intros fileName. unfold standardized. rewrite H2. reflexivity.
Qed.

(** X6. One call of an entry point calls the parser at most once, whatever
    the outcome.  When it returns, either the parser was not called and no
    object was created (the file came from the map or from a cache), or the
    parser was called exactly once and the file returned is the one new
    object. *)
Theorem at_most_one_parse_per_call (p : EntryPoint) (w : World) :
  (parserCalls (worldOf (call parser p w)) <= S (parserCalls w))%nat
  /\ forall t w',
       call parser p w = Returned t w' ->
       (parserCalls w' = parserCalls w /\ allocated w' = allocated w)
       \/ (parserCalls w' = S (parserCalls w)
           /\ allocated w' = S (allocated w)
           /\ identity t = allocated w).
Proof.
  destruct (call_hit_or_Materialized p w) as [(t0 & _ & _ & H) | H].
  - rewrite H. simpl. split; [lia |]. intros t w' E. injection E as <- <-. left. auto.
  - inversion H as [d Hno Hd Ho | e Hno He Ho | pre c post d Hc Hpre Hd Ho]; simpl.
    + rewrite parserCalls_afterParse. split; [lia |].
      intros t w' E. injection E as <- <-. right.
      rewrite parserCalls_afterParse. auto.
    + rewrite parserCalls_afterFailedParse. split; [lia |]. intros t w' E. discriminate.
    + rewrite parserCalls_afterCacheMatch. split; [lia |].
      intros t w' E. injection E as <- <-. left.
      rewrite parserCalls_afterCacheMatch. auto.
Qed.

(** X7. After an entry point has returned a file for a path,
    [acquireDocument] for any file name standardized to that path, at the
    version that [getSourceFileVersion] reports for the file, returns that
    very file and leaves the world as it is, whatever settings, snapshot and
    script kind it is given. *)
Theorem acquire_at_reported_version_is_a_hit
    (p : EntryPoint) (w : World) (t : SourceFile) (w' : World)
    (fileName : string) (cs : CompilerOptions) (s : IScriptSnapshot) (k : option ScriptKind) :
  call parser p w = Returned t w' ->
  standardized w fileName = pathOf p w ->
  acquireDocument parser fileName cs s (getSourceFileVersion t) k w' = Returned t w'.
Proof.
  intros Hret Hpath.
  assert (Hentry : entry w' (pathOf p w) = Some t).
  { destruct (call_hit_or_update p w) as [(t0 & Ht0 & _ & H) | H].
    - rewrite H in Hret. injection Hret as <- <-. exact Ht0.
    - rewrite H in Hret. eapply updateSourceFile_returned_stored; exact Hret. }
  assert (Hstd : standardized w' fileName = standardized w fileName).
  { unfold standardized. f_equal.
    destruct (call_hit_or_Materialized p w) as [(t0 & _ & _ & H) | H].
    - rewrite H in Hret. injection Hret as <- <-. reflexivity.
    - rewrite Hret in H. inversion H; reflexivity. }
  apply acquireDocument_hit; [| reflexivity].
  rewrite Hstd, Hpath. exact Hentry.
Qed.

Lemma firstDocument_none caches f s t k :
  firstDocument caches f s t k = None -> Forall (misses f s t k) caches.
Proof.
  induction caches as [| c rest IH]; simpl; [constructor |].
  destruct (getDocumentIfMatch c f s t k) eqn:E; [discriminate |].
  intros H. constructor; [exact E | apply IH, H].
Qed.

Lemma firstDocument_some caches f s t k d :
  firstDocument caches f s t k = Some d ->
  exists pre c post,
    caches = pre ++ c :: post
    /\ Forall (misses f s t k) pre
    /\ getDocumentIfMatch c f s t k = Some d.
Proof.
  induction caches as [| c rest IH]; simpl; [discriminate |].
  destruct (getDocumentIfMatch c f s t k) as [d' |] eqn:E.
  - intros H. injection H as ->. exists [], c, rest. repeat split; [constructor | exact E].
  - intros H. destruct (IH H) as (pre & c' & post & -> & Hpre & Hd).
    exists (c :: pre), c', post. repeat split; [constructor; assumption | exact Hd].
Qed.

Lemma registeredCaches_some w pre c post :
  registeredCaches (this w) = pre ++ c :: post ->
  documentCaches (this w) = Some (pre ++ c :: post).
Proof.
  unfold registeredCaches. destruct (documentCaches (this w)) as [l |].
  - congruence.
  - destruct pre; discriminate.
Qed.

(** [updateSourceFile] when some cache has the document: the first such
    document is stored and returned, whatever the version and the map. *)
Lemma updateSourceFile_firstDocument f cs s v k d w :
  firstDocument (registeredCaches (this w)) f s (target cs) k = Some d ->
  exists n, updateSourceFile parser f cs s v k w = Returned d (afterCacheMatch w f cs s k n d).
Proof.
  intros H. destruct (firstDocument_some _ _ _ _ _ _ H) as (pre & c & post & Hc & Hpre & Hd).
  exists (S (length pre)).
  apply (updateSourceFile_cache_match parser f cs s v k pre c post d w);
    [apply registeredCaches_some; exact Hc | exact Hpre | exact Hd].
Qed.

(** X8. While the caches have a document for every request,
    [createOrUpdateSourceFile] does not advance any version: each call of a
    run returns the first matching cache's document as it is, the parser is
    never called and no object is created. *)
Theorem cached_documents_bypass_the_counter
    (f : string) (requests : list (CompilerOptions * IScriptSnapshot * option ScriptKind))
    (documents : list SourceFile) (w : World) :
  Forall2 (fun request d =>
             let '(cs, s, k) := request in
             firstDocument (registeredCaches (this w)) f s (target cs) k = Some d)
          requests documents ->
  exists w',
    createOrUpdateEach parser f requests w = Returned documents w'
    /\ parserCalls w' = parserCalls w
    /\ allocated w' = allocated w.
Proof.
  intros H. remember (registeredCaches (this w)) as caches eqn:Hcaches.
  revert w Hcaches. induction H as [| [[cs s] k] d requests documents Hd _ IH]; intros w Hcaches.
  - exists w. auto.
  - subst caches.
    destruct (updateSourceFile_firstDocument f cs s
                (match entry w f with
                 | None => initialVersion
                 | Some sourceFile => getNextSourceFileVersion sourceFile
                 end) k d w Hd) as [n Hn].
    destruct (IH (afterCacheMatch w f cs s k n d) eq_refl) as (w' & Hrun & Hp & Ha).
    exists w'. split; [| split].
    + simpl createOrUpdateEach. unfold bind at 1.
      rewrite createOrUpdateSourceFile_unfold, Hn. unfold bind at 1. rewrite Hrun. reflexivity.
    + rewrite Hp. apply parserCalls_afterCacheMatch.
    + rewrite Ha. reflexivity.
Qed.

Lemma cacheQueries_parsesRequest i n f cs s k :
  Forall (parsesRequest f cs s k) (cacheQueries i n f s (target cs) k).
Proof.
  unfold cacheQueries. apply List.Forall_forall. intros c Hc.
  apply in_map_iff in Hc. destruct Hc as (j & <- & _). simpl. auto.
Qed.

(** X9. The log of collaborator calls only grows, and everything an entry
    point asks of a collaborator is about its own request: each cache query
    and each parser call carries the path of the entry point, its snapshot,
    the target of its settings and its script kind, and every parser call
    asks for parent nodes to be set. *)
Theorem collaborators_are_asked_about_the_request (p : EntryPoint) (w : World) :
  exists asked,
    calls (worldOf (call parser p w)) = calls w ++ asked
    /\ Forall (parsesRequest (pathOf p w) (settingsOf p) (snapshotOf p) (kindOf p)) asked.
Proof.
  destruct (call_hit_or_Materialized p w) as [(t & _ & _ & H) | H].
  - exists []. rewrite H. simpl. rewrite app_nil_r. split; [reflexivity | constructor].
  - inversion H as [d Hno Hd Ho | e Hno He Ho | pre c post d Hc Hpre Hd Ho]; simpl.
    + eexists. split; [reflexivity |]. apply Forall_app. split.
      * apply cacheQueries_parsesRequest.
      * repeat constructor.
    + eexists. split; [reflexivity |]. apply Forall_app. split.
      * apply cacheQueries_parsesRequest.
      * repeat constructor.
    + eexists. split; [reflexivity |]. apply cacheQueries_parsesRequest.
Qed.

(** X10. [removeSourceFile] invalidates: [acquireDocument] right after it,
    for a file name standardized to the removed path, does not answer from
    the map, whatever version it asks for.  When no cache matches and the
    parser produces a file, the parser is called and a new object is
    returned and stored. *)
Theorem acquire_after_remove_materializes
    (f : string) (cs : CompilerOptions) (s : IScriptSnapshot) (v : string)
    (k : option ScriptKind) (w : World) :
  (removeSourceFile (standardized w f) ;; acquireDocument parser f cs s v k) w
  = updateSourceFile parser (standardized w f) cs s v k (withMap (delete (standardized w f)) w)
  /\ forall d,
       noCacheMatches w (standardized w f) cs s k ->
       parser (standardized w f) s (target cs) v true k = Normal d ->
       exists w',
         (removeSourceFile (standardized w f) ;; acquireDocument parser f cs s v k) w
         = Returned {| identity := allocated w; contents := d |} w'
         /\ entry w' (standardized w f) = Some {| identity := allocated w; contents := d |}
         /\ parserCalls w' = S (parserCalls w).
Proof.
  set (path := standardized w f).
  set (w0 := withMap (delete path) w).
  assert (Heq : (removeSourceFile path ;; acquireDocument parser f cs s v k) w
                = updateSourceFile parser path cs s v k w0).
  { unfold bind, removeSourceFile, mapDelete. fold w0.
    apply (acquireDocument_miss parser f cs s v k w0). left.
    unfold entry, w0, withMap. simpl. apply lookup_delete_eq. }
  split; [exact Heq |].
  intros d Hno Hd. exists (afterParse w0 path cs s v k d). split; [| split].
  - rewrite Heq. exact (updateSourceFile_parsed parser path cs s v k d w0 Hno Hd).
  - exact (entry_afterParse w0 path cs s v k d).
  - exact (parserCalls_afterParse w0 path cs s v k d).
Qed.

(** X11. A newly constructed registry has an empty map and the given caches,
    each bound to the given file system, in the order given.  So its first
    [createOrUpdateSourceFile] for any path materializes at the initial
    version, and [acquireDocument] materializes at the version asked. *)
Theorem constructed_registry_starts_empty
    (fileSystem : TransactionalFileSystem) (caches : option (list DocumentCache))
    (created : nat) (log : list Call) :
  let w := constructedWorld fileSystem caches created log in
  (forall path, entry w path = None)
  /\ registeredCaches (this w)
     = List.map (fun c => _getCacheForFileSystem c fileSystem)
         (match caches with Some l => l | None => [] end)
  /\ (forall f cs s k,
         createOrUpdateSourceFile parser f cs s k w
         = updateSourceFile parser f cs s initialVersion k w)
  /\ (forall f cs s v k,
         acquireDocument parser f cs s v k w
         = updateSourceFile parser (getStandardizedAbsolutePath fileSystem f) cs s v k w).
Proof.
  intros w.
  assert (Hempty : forall path, entry w path = None).
  { intros path. unfold entry, w, constructedWorld, newDocumentRegistry. simpl.
    apply lookup_empty. }
  split; [exact Hempty |]. split; [destruct caches; reflexivity |]. split.
  - intros f cs s k. rewrite createOrUpdateSourceFile_unfold, Hempty. reflexivity.
  - intros f cs s v k. apply (acquireDocument_miss parser f cs s v k w). left. apply Hempty.
Qed.

(** X12. When every source file in the map and in the caches was created
    earlier (its identity is below the allocation counter), this is still so
    after an entry point has returned, and the file returned was created
    earlier too.  If the parser was called, the file returned is an object
    that the map did not hold under any path before. *)
Theorem source_files_are_created_before_use
    (p : EntryPoint) (w : World) (t : SourceFile) (w' : World) :
  createdEarlier w ->
  call parser p w = Returned t w' ->
  createdEarlier w'
  /\ (identity t < allocated w')%nat
  /\ (parserCalls w' = S (parserCalls w) ->
      forall path t0, entry w path = Some t0 -> identity t0 <> identity t).
Proof.
  intros [Hmap Hcaches] Hret.
  destruct (call_hit_or_Materialized p w) as [(t0 & Ht0 & _ & H) | H].
  - rewrite H in Hret. injection Hret as <- <-.
    split; [split; assumption |]. split; [eapply Hmap; exact Ht0 |]. lia.
  - rewrite Hret in H.
    inversion H as [d Hno Hd Ho | e Hno He Ho | pre c post d Hc Hpre Hd Ho]; subst.
    + split; [split |]; [| | split].
      * intros path t0. destruct (string_dec path (pathOf p w)) as [-> | Hne].
        -- rewrite entry_afterParse. intros E. injection E as <-. simpl. lia.
        -- rewrite entry_afterParse_other by assumption. intros E.
           apply Hmap in E. simpl. lia.
      * eapply List.Forall_impl; [| exact Hcaches]. simpl.
        intros c Hc f s t k d' E. apply Hc in E. lia.
      * simpl. lia.
      * intros _ path t0 E. apply Hmap in E. simpl. lia.
    + assert (Hd' : (identity t < allocated w)%nat).
      { unfold registeredCaches in Hcaches. rewrite Hc in Hcaches.
        apply Forall_app in Hcaches. destruct Hcaches as [_ Hcaches].
        inversion Hcaches as [| ? ? Hhead _]; subst. eapply Hhead. exact Hd. }
      split; [split |]; [| | split].
      * intros path t0. destruct (string_dec path (pathOf p w)) as [-> | Hne].
        -- rewrite entry_afterCacheMatch. intros E. injection E as <-. exact Hd'.
        -- rewrite entry_afterCacheMatch_other by assumption. apply Hmap.
      * exact Hcaches.
      * exact Hd'.
      * rewrite parserCalls_afterCacheMatch. lia.
Qed.

End EntryPoints.

(** ** The next version of arbitrary version strings *)

Lemma trimStart_allWhiteSpace (ws x : string) :
  allWhiteSpace ws = true -> Js.trimStart (ws ++ x)%string = Js.trimStart x.
Proof.
  induction ws as [| c ws IH]; simpl; [reflexivity |].
  intros H. apply andb_prop in H. destruct H as [Hc Hws]. rewrite Hc. apply IH, Hws.
Qed.

Lemma digitPrefix_digits_rest (u : Decimal.uint) (rest : string) :
  noLeadingDigit rest -> Js.digitPrefix (NilEmpty.string_of_uint u ++ rest)%string = u.
Proof.
  intros Hrest. induction u; simpl; try congruence.
  destruct rest as [| c r]; simpl in *; [reflexivity | rewrite Hrest; reflexivity].
Qed.

Lemma parseInt10_cons (c : ascii) (r : string) :
  Js.isWhiteSpace c = false ->
  c <> "-"%char ->
  c <> "+"%char ->
  Js.parseInt10 (String c r) = Js.rounded (Js.digitsValue (String c r)).
Proof.
  intros Hws Hminus Hplus. unfold Js.parseInt10. simpl Js.trimStart. rewrite Hws.
  destruct c as [[] [] [] [] [] [] [] []]; try reflexivity; congruence.
Qed.

Lemma digits_head (u : Decimal.uint) (rest : string) :
  u <> Decimal.Nil ->
  exists c r,
    (NilEmpty.string_of_uint u ++ rest)%string = String c r
    /\ Js.isWhiteSpace c = false
    /\ c <> "-"%char
    /\ c <> "+"%char.
Proof.
  intros Hu. destruct u; [congruence | ..]; simpl; eexists _, _;
    (split; [reflexivity |]); (split; [reflexivity |]); split; discriminate.
Qed.

Lemma parseInt10_digits_rest (u : Decimal.uint) (rest : string) :
  u <> Decimal.Nil ->
  noLeadingDigit rest ->
  Js.parseInt10 (NilEmpty.string_of_uint u ++ rest)%string
  = Js.Num (Js.roundDouble (Z.of_N (N.of_uint u))).
Proof.
  intros Hu Hrest.
  assert (Hd : Js.digitsValue (NilEmpty.string_of_uint u ++ rest)%string
               = Js.Num (Z.of_N (N.of_uint u))).
  { unfold Js.digitsValue. rewrite digitPrefix_digits_rest by assumption.
    destruct u; congruence. }
  destruct (digits_head u rest Hu) as (c & r & E & Hws & Hminus & Hplus).
  rewrite E in *. rewrite parseInt10_cons, Hd by assumption. reflexivity.
Qed.

(** The decimal digits of a natural number. *)
Lemma toString_digits (n : Z) :
  0 <= n ->
  exists u, u <> Decimal.Nil
            /\ Js.toString n = NilEmpty.string_of_uint u
            /\ Z.of_N (N.of_uint u) = n.
Proof.
  intros Hn. destruct n as [| p | p]; [| | lia].
  - exists (Decimal.D0 Decimal.Nil). repeat split. discriminate.
  - exists (Pos.to_uint p).
    assert (Hp : Pos.to_uint p <> Decimal.Nil).
    { intros E. pose proof (DecimalPos.Unsigned.of_to p) as H. rewrite E in H. discriminate. }
    split; [exact Hp |]. split.
    + unfold Js.toString, NilZero.string_of_int, NilZero.string_of_uint. simpl Z.to_int.
      destruct (Pos.to_uint p); congruence.
    + unfold N.of_uint. rewrite DecimalPos.Unsigned.of_to. reflexivity.
Qed.

Lemma append_nonempty (a b : string) : b <> "" -> (a ++ b)%string <> "".
Proof. destruct a; simpl; [tauto | discriminate]. Qed.

(** X13. The next version is one more than the decimal numeral the version
    begins with: leading white space is skipped and whatever follows the
    digits is ignored, so " 7" leads to "8" and "12-beta" to "13" (for
    numerals below 2^53). *)
Theorem next_version_reads_the_leading_numeral
    (t : SourceFile) (ws rest : string) (n : Z) :
  version (contents t) = Some (ws ++ Js.toString n ++ rest)%string ->
  allWhiteSpace ws = true ->
  noLeadingDigit rest ->
  0 <= n < Js.maxExact ->
  getNextSourceFileVersion t = Js.toString (n + 1).
Proof.
  intros Hv Hws Hrest Hn.
  destruct (toString_digits n) as (u & Hu & Hstr & Hval); [lia |].
  assert (Hne : (ws ++ Js.toString n ++ rest)%string <> "").
  { apply append_nonempty. destruct (toString_nonempty n) as (c & r & E). rewrite E.
    discriminate. }
  unfold getNextSourceFileVersion.
  rewrite (getSourceFileVersion_recorded t _ Hv Hne).
  unfold Js.parseInt10 at 1. rewrite trimStart_allWhiteSpace by assumption.
  fold (Js.parseInt10 (Js.toString n ++ rest)%string).
  rewrite Hstr, parseInt10_digits_rest, Hval by assumption.
  rewrite roundDouble_exact by lia. simpl Js.orZero.
  rewrite add1_exact by lia. reflexivity.
Qed.

(** X14. A version without a numeral counts as zero: for a file whose
    version is missing, empty, or begins with an ASCII character that is
    neither white space, a sign nor a digit, the next version is "1". *)
Theorem next_version_without_numeral_is_one (t : SourceFile) :
  (version (contents t) = None
   \/ version (contents t) = Some ""
   \/ exists c r,
        version (contents t) = Some (String c r)
        /\ (nat_of_ascii c < 128)%nat
        /\ Js.isWhiteSpace c = false
        /\ c <> "-"%char
        /\ c <> "+"%char
        /\ Js.digitOf c = None) ->
  getNextSourceFileVersion t = "1".
Proof.
  unfold getNextSourceFileVersion, getSourceFileVersion.
  intros [H | [H | (c & r & H & _ & Hws & Hminus & Hplus & Hdigit)]]; rewrite H;
    [reflexivity | reflexivity |].
  rewrite orString_nonempty, parseInt10_cons by assumption.
  unfold Js.digitsValue. simpl Js.digitPrefix. rewrite Hdigit. reflexivity.
Qed.

(** X15. A minus sign is read: for a file at version "-n" with
    1 <= n <= 2^53 the next version is the numeral of 1 - n.  In particular a
    file at "-1" is followed by "0", the initial version. *)
Theorem next_version_of_a_negative_version (t : SourceFile) (n : Z) :
  version (contents t) = Some (String "-" (Js.toString n)) ->
  1 <= n <= Js.maxExact ->
  getNextSourceFileVersion t = Js.toString (1 - n)
  /\ (n = 1 -> getNextSourceFileVersion t = initialVersion).
Proof.
  intros Hv Hn.
  assert (H : getNextSourceFileVersion t = Js.toString (1 - n)).
  { destruct (toString_digits n) as (u & Hu & Hstr & Hval); [lia |].
    unfold getNextSourceFileVersion, getSourceFileVersion. rewrite Hv, orString_nonempty.
    unfold Js.parseInt10. simpl Js.trimStart. cbv iota beta.
    unfold Js.digitsValue. rewrite Hstr, digitPrefix_string_of_uint.
    destruct u as [| u' | u' | u' | u' | u' | u' | u' | u' | u' | u']; try congruence;
      rewrite Hval; simpl Js.negate; simpl Js.rounded;
      (rewrite roundDouble_exact by lia); simpl Js.orZero;
      unfold Js.add1; (rewrite roundDouble_exact by lia); f_equal; lia. }
  split; [exact H |]. intros ->. rewrite H. reflexivity.
Qed.

(** ** RealFileSystemHost.glob *)

Lemma backslashesToForward_no_backslash (p : string) :
  RealFileSystemHost.hasBackslash (RealFileSystemHost.backslashesToForward p) = false.
Proof.
  induction p as [| c rest IH]; simpl; [reflexivity |]. rewrite IH.
  destruct (Ascii.eqb c RealFileSystemHost.backslash) eqn:E; [reflexivity |].
  rewrite E. reflexivity.
Qed.

Lemma backslashesToForward_unchanged (p : string) :
  RealFileSystemHost.hasBackslash p = false -> RealFileSystemHost.backslashesToForward p = p.
Proof.
  induction p as [| c rest IH]; simpl; [reflexivity |].
  intros H. apply orb_false_elim in H. destruct H as [Hc Hrest].
  rewrite Hc, IH by assumption. reflexivity.
Qed.

Lemma backslashesToForward_same (p q : string) :
  RealFileSystemHost.sameUpToSlashDirection p q = true ->
  RealFileSystemHost.backslashesToForward p = RealFileSystemHost.backslashesToForward q.
Proof.
  revert q. induction p as [| a p IH]; intros [| b q]; simpl; try discriminate; [reflexivity |].
  intros H. apply andb_prop in H. destruct H as [Hab Hpq].
  rewrite (IH q Hpq). f_equal.
  apply orb_prop in Hab. destruct Hab as [Hab | Hab].
  - apply Ascii.eqb_eq in Hab. subst b. reflexivity.
  - apply andb_prop in Hab. destruct Hab as [Ha Hb].
    unfold RealFileSystemHost.isSlash in Ha, Hb.
    destruct (Ascii.eqb a RealFileSystemHost.backslash) eqn:Ea;
      destruct (Ascii.eqb b RealFileSystemHost.backslash) eqn:Eb; simpl in Ha, Hb.
    + reflexivity.
    + apply Ascii.eqb_eq in Hb. congruence.
    + apply Ascii.eqb_eq in Ha. congruence.
    + apply Ascii.eqb_eq in Ha. apply Ascii.eqb_eq in Hb. congruence.
Qed.

(** X16. Whatever fast-glob and the current directory are, [glob] calls
    fast-glob once, with the current directory, with [absolute] set, and
    with a list of patterns that contain no backslash: pattern by pattern,
    what is passed has the length of what was given, a forward slash where
    that has a backslash and the same character elsewhere.  Patterns
    without a backslash are passed on unchanged. *)
Theorem glob_patterns_have_forward_slashes (patterns : list string) :
  exists passed,
    (forall (fastGlobSync : list string -> string -> bool -> list string)
            (currentDirectory : string),
        RealFileSystemHost.glob fastGlobSync currentDirectory patterns
        = fastGlobSync passed currentDirectory true)
    /\ Forall (fun q => RealFileSystemHost.hasBackslash q = false) passed
    /\ Forall2 (fun p q =>
                  String.length q = String.length p
                  /\ forall i, String.get i q
                               = match String.get i p with
                                 | Some c => Some (if Ascii.eqb c RealFileSystemHost.backslash
                                                   then "/"%char else c)
                                 | None => None
                                 end)
               patterns passed
    /\ (Forall (fun p => RealFileSystemHost.hasBackslash p = false) patterns ->
        passed = patterns).
Proof.
  exists (List.map RealFileSystemHost.backslashesToForward patterns).
  split; [reflexivity |]. split; [| split].
  - induction patterns; simpl; constructor; [apply backslashesToForward_no_backslash | assumption].
  - induction patterns as [| p rest IH]; simpl; constructor; [| exact IH].
    split.
    + induction p as [| c r IHp]; simpl; [reflexivity | rewrite IHp; reflexivity].
    + induction p as [| c r IHp]; intros i; simpl; [reflexivity |].
      destruct i; [reflexivity | apply IHp].
  - intros H. induction H as [| p rest Hp _ IH]; simpl; [reflexivity |].
    rewrite backslashesToForward_unchanged, IH by assumption. reflexivity.
Qed.

(** X17. [glob] does not tell a backslash from a forward slash: whatever
    fast-glob does with the patterns it is given, two lists of patterns that
    agree character by character, except that where one has a slash the
    other may have the slash of the other direction, give the same
    result. *)
Theorem glob_ignores_slash_direction
    (fastGlobSync : list string -> string -> bool -> list string) (currentDirectory : string)
    (patterns patterns' : list string) :
  Forall2 (fun p q => RealFileSystemHost.sameUpToSlashDirection p q = true)
          patterns patterns' ->
  RealFileSystemHost.glob fastGlobSync currentDirectory patterns
  = RealFileSystemHost.glob fastGlobSync currentDirectory patterns'.
Proof.
  intros H. unfold RealFileSystemHost.glob. f_equal.
  induction H as [| p q rest rest' Hpq _ IH]; simpl; [reflexivity |].
  rewrite (backslashesToForward_same p q Hpq), IH. reflexivity.
Qed.

(** * The further properties at concrete registries *)

Lemma populatedWorld_createdEarlier : createdEarlier populatedWorld.
Proof.
  split; [| constructor]. intros path t.
  unfold entry, populatedWorld, withMap. simpl.
  destruct (string_dec path "/a.ts") as [-> | Hne].
  - rewrite lookup_insert_eq. intros E. injection E as <-. simpl. lia.
  - rewrite lookup_insert_ne by congruence. rewrite lookup_empty. discriminate.
Qed.

Lemma entry_points_touch_one_path_witness :
  "/a.ts" <> pathOf (CreateOrUpdateSourceFile "/b.ts" es2015 snapshot None) populatedWorld
  /\ entry (worldOf (call recordingParser
                       (CreateOrUpdateSourceFile "/b.ts" es2015 snapshot None) populatedWorld))
           "/a.ts"
     = Some (cachedFile 0 (Some "4")).
Proof.
  assert (Hne : "/a.ts"
                <> pathOf (CreateOrUpdateSourceFile "/b.ts" es2015 snapshot None) populatedWorld)
    by discriminate.
  split; [exact Hne |].
  rewrite (entry_points_touch_one_path recordingParser
             (CreateOrUpdateSourceFile "/b.ts" es2015 snapshot None) populatedWorld "/a.ts" Hne).
  reflexivity.
Defined.

Lemma returned_file_is_the_entry_witness :
  exists t w',
    call recordingParser (CreateOrUpdateSourceFile "/a.ts" es2015 snapshot None) populatedWorld
    = Returned t w'
    /\ entry w' "/a.ts" = Some t
    /\ getSourceFileVersion t = "5".
Proof.
  eexists _, _. split; [reflexivity |]. split; [| reflexivity].
  exact (returned_file_is_the_entry recordingParser
           (CreateOrUpdateSourceFile "/a.ts" es2015 snapshot None) populatedWorld _ _ eq_refl).
Defined.

Lemma acquire_at_reported_version_witness :
  exists t w',
    call recordingParser (CreateOrUpdateSourceFile "/a.ts" es2015 snapshot None) populatedWorld
    = Returned t w'
    /\ getSourceFileVersion t = "5"
    /\ acquireDocument recordingParser "/a.ts" es2015 (mkSnapshot "other text") "5" (Some JS) w'
       = Returned t w'.
Proof.
  eexists _, _. split; [reflexivity |]. split; [reflexivity |].
  exact (acquire_at_reported_version_is_a_hit recordingParser
           (CreateOrUpdateSourceFile "/a.ts" es2015 snapshot None) populatedWorld _ _
           "/a.ts" es2015 (mkSnapshot "other text") (Some JS) eq_refl eq_refl).
Defined.

Lemma cached_documents_witness :
  exists w',
    createOrUpdateEach recordingParser "/a.ts" cachedRequests seededWorld
    = Returned [cachedFile 0 (Some "7"); cachedFile 0 (Some "7")] w'
    /\ parserCalls w' = parserCalls seededWorld
    /\ allocated w' = allocated seededWorld.
Proof.
  apply (cached_documents_bypass_the_counter recordingParser "/a.ts" cachedRequests
           [cachedFile 0 (Some "7"); cachedFile 0 (Some "7")] seededWorld).
  repeat (apply Forall2_cons_2; [reflexivity |]). apply Forall2_nil_2.
Defined.

Lemma acquire_after_remove_witness :
  noCacheMatches populatedWorld (standardized populatedWorld "/a.ts") es2015 snapshot None
  /\ exists t w',
       (removeSourceFile "/a.ts" ;;
        acquireDocument recordingParser "/a.ts" es2015 snapshot "4" None) populatedWorld
       = Returned t w'
       /\ identity t = allocated populatedWorld
       /\ parserCalls w' = S (parserCalls populatedWorld).
Proof.
  assert (Hno : noCacheMatches populatedWorld (standardized populatedWorld "/a.ts") es2015
                  snapshot None) by constructor.
  split; [exact Hno |].
  destruct (acquire_after_remove_materializes recordingParser "/a.ts" es2015 snapshot "4" None
              populatedWorld) as [_ H].
  destruct (H _ Hno eq_refl) as (w' & Hrun & _ & Hcalls).
  eexists _, w'. split; [exact Hrun |]. split; [reflexivity | exact Hcalls].
Defined.

Lemma source_files_are_created_before_use_witness :
  createdEarlier populatedWorld
  /\ exists t w',
       call recordingParser (AcquireDocument "/a.ts" es2015 snapshot "5" None) populatedWorld
       = Returned t w'
       /\ createdEarlier w'
       /\ identity t <> identity (cachedFile 0 (Some "4")).
Proof.
  split; [exact populatedWorld_createdEarlier |].
  eexists _, _. split; [reflexivity |].
  destruct (source_files_are_created_before_use recordingParser
              (AcquireDocument "/a.ts" es2015 snapshot "5" None) populatedWorld _ _
              populatedWorld_createdEarlier eq_refl) as (Hearlier & _ & Hnew).
  split; [exact Hearlier |].
  intros E. apply (Hnew eq_refl "/a.ts" (cachedFile 0 (Some "4")) eq_refl). symmetry. exact E.
Defined.

Lemma next_version_reads_the_leading_numeral_witness :
  version (contents (cachedFile 0 (Some " 12-beta"))) = Some (" " ++ Js.toString 12 ++ "-beta")%string
  /\ getNextSourceFileVersion (cachedFile 0 (Some " 12-beta")) = "13".
Proof.
  split; [reflexivity |].
  exact (next_version_reads_the_leading_numeral (cachedFile 0 (Some " 12-beta")) " " "-beta" 12
           eq_refl eq_refl eq_refl ltac:(split; [discriminate | reflexivity])).
Defined.

Lemma next_version_without_numeral_witness :
  getNextSourceFileVersion (cachedFile 0 (Some "abc")) = "1".
Proof.
  apply next_version_without_numeral_is_one. right. right.
  exists "a"%char, "bc". split; [reflexivity |]. split; [apply Nat.ltb_lt; reflexivity |].
  split; [reflexivity |]. split; [discriminate |]. split; [discriminate | reflexivity].
Defined.

Lemma next_version_of_a_negative_version_witness :
  getNextSourceFileVersion (cachedFile 0 (Some "-3")) = "-2".
Proof.
  destruct (next_version_of_a_negative_version (cachedFile 0 (Some "-3")) 3 eq_refl
              ltac:(split; discriminate)) as [H _].
  exact H.
Defined.

Lemma glob_ignores_slash_direction_witness :
  RealFileSystemHost.glob listingGlob "/project" ["src\**\*.ts"; "lib/*.js"]
  = RealFileSystemHost.glob listingGlob "/project" ["src/**\*.ts"; "lib/*.js"]
  /\ RealFileSystemHost.glob listingGlob "/project" ["src\**\*.ts"; "lib/*.js"]
     = ["/project/src/**/*.ts"; "/project/lib/*.js"].
Proof.
  split; [| reflexivity].
  apply (glob_ignores_slash_direction listingGlob "/project"
           ["src\**\*.ts"; "lib/*.js"] ["src/**\*.ts"; "lib/*.js"]).
  repeat (apply Forall2_cons_2; [reflexivity |]). apply Forall2_nil_2.
Defined.
